(** * The web-test launcher (go/launcher/launcher.go)

    A shallow embedding of the launcher's [Run], [buildEnv] and
    [RegisterEnvProviderFunc], and the properties of its set-up /
    tear-down sequence, its provider registry and its exit status.

    The launcher is sequential Go code that calls into other packages
    (bazel, metadata, proxy, os/exec, the registered environments).  Those
    calls are modelled as functions on an abstract [World]; the launcher's
    own code is written in a small monad that threads the world and the
    global provider table, records every call the launcher makes in a list
    of events, and knows Go's run-time panics and [defer]. *)

From Stdlib Require Import ZArith.
From stdpp Require Import gmap strings list.

Local Open Scope Z_scope.

(** ** Go values the launcher inspects *)

(** [syscall.WaitStatus] on linux is a 32-bit word: the low seven bits are
    zero for a process that exited, and bits 8..15 hold the exit code. *)
Abbreviation WaitStatus := Z (only parsing).

Definition Exited (w : WaitStatus) : bool := Z.land w 127 =? 0.

Definition ExitStatus (w : WaitStatus) : Z :=
  if Exited w then Z.land (Z.shiftr w 8) 255 else -1.

(** The [interface{}] that the [Sys] method of an [exec.ExitError] hands
    back. *)
Inductive sysval :=
  | SysWaitStatus (ws : WaitStatus)
  | SysOther.

(** A non-nil [error]: either an [exec.ExitError] or a value of some other
    dynamic type, of which only the message matters here. *)
Inductive errval :=
  | ExitError (sys : sysval)
  | ErrorString (msg : string).

(** Go's [error] interface; [None] is [nil]. *)
Abbreviation error := (option errval) (only parsing).

(** The type assertion of [err] to a pointer to [exec.ExitError]. *)
Definition asExitError (err : error) : option sysval :=
  match err with
  | Some (ExitError sys) => Some sys
  | _ => None
  end.

(** The type assertion of [ee.Sys()] to [syscall.WaitStatus]. *)
Definition asWaitStatus (v : sysval) : option WaitStatus :=
  match v with
  | SysWaitStatus ws => Some ws
  | SysOther => None
  end.

(** What the [Run] method of an [exec.Cmd] returns for a child that ran
    and exited with code [K]: nil for zero, an [exec.ExitError] carrying
    the wait status otherwise. *)
Definition childExit (K : Z) : error :=
  if K =? 0 then None else Some (ExitError (SysWaitStatus (Z.shiftl K 8))).

(** ** Commands *)

Inductive stdstream := os_Stdin | os_Stdout | os_Stderr.

Record Cmd := {
  Path : string;
  Args : list string;
  Env_ : gmap string string;
  Stdin : option stdstream;
  Stdout : option stdstream;
  Stderr : option stdstream }.

(** [exec.Command(name, arg...)] *)
Definition Command (name : string) (arg : list string) : Cmd :=
  {| Path := name; Args := name :: arg; Env_ := ∅;
     Stdin := None; Stdout := None; Stderr := None |}.

(** Modelled from the spec: [cmdhelper.BulkUpdateEnv] is not part of the
    launcher's file.  The overlay is merged on top of the inherited
    environment, and the overlay wins on a key collision.  The process
    environment is kept as a finite map from names to values. *)
Definition BulkUpdateEnv (env update : gmap string string) : gmap string string :=
  update ∪ env.

(** ** Events: the calls the launcher makes, in order *)

Inductive logarg :=
  | LErr (e : errval)
  | LStr (s : string).

Inductive event :=
  | ERunfile (path : string) (err : error)
  | EFromFile (path : string) (err : error)
  | EProvider (name : string)
  | ESetUp (err : error)
  | ETearDown (err : error)
  | EProxyNew (err : error)
  | EProxyStart (err : error)
  | ENewTmpDir (prefix : string) (err : error)
  | ERunCall (c : Cmd)
  | ERunReturn (status : error)
  | ELog (format : string) (arg : logarg)
  | EPanic.

Definition is_TearDown (ev : event) : bool :=
  match ev with ETearDown _ => true | _ => false end.

Definition is_RunCall (ev : event) : bool :=
  match ev with ERunCall _ => true | _ => false end.

Definition is_RunReturn (ev : event) : bool :=
  match ev with ERunReturn _ => true | _ => false end.

Definition is_child (ev : event) : bool := is_RunCall ev || is_RunReturn ev.

(** A fatal error that aborts the run: every abort path logs before it
    returns, and a run-time panic is recorded as such. *)
Definition is_fatal (ev : event) : bool :=
  match ev with ELog _ _ => true | EPanic => true | _ => false end.

(** How many events of a kind a run made. *)
Fixpoint count (f : event → bool) (evs : list event) : nat :=
  match evs with
  | [] => 0%nat
  | ev :: evs' => ((if f ev then 1 else 0) + count f evs')%nat
  end.

(** The commands a run started, in order. *)
Fixpoint run_calls (evs : list event) : list Cmd :=
  match evs with
  | [] => []
  | ERunCall c :: evs' => c :: run_calls evs'
  | _ :: evs' => run_calls evs'
  end.

(** ** Command-line flags *)

Record Flags := {
  test : string;
  metadataFileFlag : string;
  flag_Args : list string }.

(** ** The result of a Go function body *)

Inductive res (A : Type) :=
  | Val (a : A)
  | Panic.
Arguments Val {A} a.
Arguments Panic {A}.

Section Launcher.
Context {World Diagnostics Metadata Proxy : Type}.

(** [environment.Env]: the two methods the launcher calls. *)
Record Env := {
  SetUp : World → error * World;
  TearDown : World → error * World }.

Definition envProvider : Type :=
  option Metadata → Diagnostics → World → (option Env * error) * World.

(** The packages the launcher calls into.  A pointer result is an
    [option]: [None] is the nil pointer. *)
Record Platform := {
  Environment : Metadata → string;
  Runfile : string → World → (string * error) * World;
  FromFile : string → World → (option Metadata * error) * World;
  proxy_New : option Env → option Metadata → Diagnostics → World →
              (option Proxy * error) * World;
  Start : option Proxy → World → error * World;
  Address : Proxy → World → string;
  NewTmpDir : string → World → (string * error) * World;
  TestTmpDir : World → string * World;
  Environ : World → gmap string string;
  Cmd_Run : Cmd → World → error * World }.

(** The program state: the outside world and the package-level
    variable [envProviders]. *)
Record State := {
  world : World;
  envProviders : gmap string envProvider }.

Record Out (A : Type) := {
  result : res A;
  final : State;
  events : list event }.
Arguments result {A} _.
Arguments final {A} _.
Arguments events {A} _.

Definition M (A : Type) : Type := State → Out A.

Definition ret {A} (a : A) : M A :=
  λ s, {| result := Val a; final := s; events := [] |}.

Definition bind {A B} (m : M A) (k : A → M B) : M B :=
  λ s, let o := m s in
       match result o with
       | Val a => let o' := k a (final o) in
                  {| result := result o'; final := final o';
                     events := events o ++ events o' |}
       | Panic => {| result := Panic; final := final o; events := events o |}
       end.

Definition emit (ev : event) : M unit :=
  λ s, {| result := Val tt; final := s; events := [ev] |}.

(** A run-time panic (here always a nil dereference). *)
Definition panic {A} : M A :=
  λ s, {| result := Panic; final := s; events := [EPanic] |}.

(** A call into another package. *)
Definition extern {A} (f : World → A * World) : M A :=
  λ s, let r := f (world s) in
       {| result := Val r.1;
          final := {| world := r.2; envProviders := envProviders s |};
          events := [] |}.

Definition peek {A} (f : World → A) : M A :=
  λ s, {| result := Val (f (world s)); final := s; events := [] |}.

Definition providers : M (gmap string envProvider) :=
  λ s, {| result := Val (envProviders s); final := s; events := [] |}.

(** [defer f; rest]: [f] runs when the rest of the function is left,
    by a return or by a panic; a panic in [f] itself wins. *)
Definition defer {A} (f : M unit) (rest : M A) : M A :=
  λ s, let o := rest s in
       let o' := f (final o) in
       {| result := match result o' with Val _ => result o | Panic => Panic end;
          final := final o';
          events := events o ++ events o' |}.

Definition logPrintf (format : string) (arg : logarg) : M unit :=
  emit (ELog format arg).

#[export] Instance M_mret : MRet M := @ret.
#[export] Instance M_bind : MBind M := λ A B k m, bind m k.

Variable P : Platform.
Variable fl : Flags.

(** *** Calls into other packages, each recorded as an event *)

Definition bazel_Runfile (path : string) : M (string * error) :=
  r ← extern (Runfile P path);
  emit (ERunfile path r.2);;
  mret r.

(** [metadata.FromFile(metadataFile, nil)] *)
Definition metadata_FromFile (path : string) : M (option Metadata * error) :=
  r ← extern (FromFile P path);
  emit (EFromFile path r.2);;
  mret r.

(** [env.SetUp(context.Background())]; a method call on a nil interface
    value panics. *)
Definition env_SetUp (env : option Env) : M error :=
  match env with
  | None => panic
  | Some e =>
      err ← extern (SetUp e);
      emit (ESetUp err);;
      mret err
  end.

(** [env.TearDown(context.Background())] *)
Definition env_TearDown (env : option Env) : M error :=
  match env with
  | None => panic
  | Some e =>
      err ← extern (TearDown e);
      emit (ETearDown err);;
      mret err
  end.

(** [proxy.New(env, m, d)] *)
Definition proxy_New_ (env : option Env) (m : option Metadata)
    (d : Diagnostics) : M (option Proxy * error) :=
  r ← extern (proxy_New P env m d);
  emit (EProxyNew r.2);;
  mret r.

(** [p.Start(context.Background())] *)
Definition p_Start (p : option Proxy) : M error :=
  err ← extern (Start P p);
  emit (EProxyStart err);;
  mret err.

(** [p.Address]; reading a field through a nil pointer panics. *)
Definition p_Address (p : option Proxy) : M string :=
  match p with
  | None => panic
  | Some p0 => peek (Address P p0)
  end.

Definition bazel_NewTmpDir (prefix : string) : M (string * error) :=
  r ← extern (NewTmpDir P prefix);
  emit (ENewTmpDir prefix r.2);;
  mret r.

(** [testCmd.Run()]: starts the child and returns once it has terminated
    (or could not be started). *)
Definition testCmd_Run (c : Cmd) : M error :=
  emit (ERunCall c);;
  status ← extern (Cmd_Run P c);
  emit (ERunReturn status);;
  mret status.

(** *** The launcher *)

(** [RegisterEnvProviderFunc]: [envProviders[name] = p] *)
Definition RegisterEnvProviderFunc (name : string) (p : envProvider) : M unit :=
  λ s, {| result := Val tt;
          final := {| world := world s;
                      envProviders := <[name := p]> (envProviders s) |};
          events := [] |}.

(** A sequence of registrations, in the order the calls are made. *)
Fixpoint registerAll (regs : list (string * envProvider)) : M unit :=
  match regs with
  | [] => mret tt
  | (name, p) :: regs' => RegisterEnvProviderFunc name p;; registerAll regs'
  end.

(** [buildEnv]; [m.Environment] on a nil [m] panics. *)
Definition buildEnv (m : option Metadata) (d : Diagnostics)
    : M (option Env * error) :=
  match m with
  | None => panic
  | Some m0 =>
      provs ← providers;
      match provs !! Environment P m0 with
      | None =>
          mret (None, Some (ErrorString
                             ("unknown environment: " +:+ Environment P m0)))
      | Some p =>
          emit (EProvider (Environment P m0));;
          extern (p m d)
      end
  end.

(** The deferred closure of [Run] (lines 84-88). *)
Definition deferredTearDown (env : option Env) : M unit :=
  err ← env_TearDown env;
  match err with
  | Some e => logPrintf "Error tearing down environment: %v" (LErr e)
  | None => mret tt
  end.

(** The overlay map literal of lines 115-120. *)
Definition overlay (address tmpDir testTmpDir : string) : gmap string string :=
  <["WEB_TEST_WEBDRIVER_SERVER" := "http://" +:+ address +:+ "/wd/hub"]>
  (<["TEST_TMPDIR" := tmpDir]>
  (<["WEB_TEST_TMPDIR" := testTmpDir]>
  (<["WEB_TEST_TARGET" := test fl]> ∅))).

(** [testCmd] as lines 114-123 build it, from the values they read. *)
Definition testCommand (testExe : string) (environ : gmap string string)
    (address tmpDir testTmpDir : string) : Cmd :=
  let testCmd := Command testExe (flag_Args fl) in
  {| Path := Path testCmd; Args := Args testCmd;
     Env_ := BulkUpdateEnv environ (overlay address tmpDir testTmpDir);
     Stdin := Some os_Stdin; Stdout := Some os_Stdout;
     Stderr := Some os_Stderr |}.

(** The statements of [Run] after the [defer] (lines 90-134).  [err] is
    the function-level variable; the errors of the [if err := ...]
    statements are scoped to those statements. *)
Definition afterSetUp (env : option Env) (m : option Metadata)
    (d : Diagnostics) : M Z :=
  '(p, err) ← proxy_New_ env m d;
  match err with
  | Some e => logPrintf "Error creating proxy: %v" (LErr e);; mret 127
  | None =>
  err' ← p_Start p;
  match err' with
  | Some e => logPrintf "Error starting proxy: %v" (LErr e);; mret 127
  | None =>
  '(testExe, err) ← bazel_Runfile (test fl);
  match err with
  | Some _ => logPrintf "unable to find %s" (LStr (test fl));; mret 127
  | None =>
  '(tmpDir, err) ← bazel_NewTmpDir "test";
  match err with
  | Some e =>
      logPrintf "Unable to create new temp dir for test: %v" (LErr e);;
      mret (-1)
  | None =>
  environ ← peek (Environ P);
  address ← p_Address p;
  testTmpDir ← extern (TestTmpDir P);
  let testCmd := testCommand testExe environ address tmpDir testTmpDir in
  status ← testCmd_Run testCmd;
  match status with
  | Some st =>
      logPrintf "test failed %v" (LErr st);;
      match asExitError err with
      | Some ee =>
          match asWaitStatus ee with
          | Some ws => mret (ExitStatus ws)
          | None => mret 1
          end
      | None => mret 1
      end
  | None => mret 0
  end end end end end.

(** [Run] *)
Definition Run (d : Diagnostics) : M Z :=
  '(metadataFile, err) ← bazel_Runfile (metadataFileFlag fl);
  match err with
  | Some e => logPrintf "Error locating metadata file: %v" (LErr e);; mret 127
  | None =>
  '(m, err) ← metadata_FromFile metadataFile;
  match err with
  | Some e => logPrintf "Error reading metadata file: %v" (LErr e);; mret 127
  | None =>
  '(env, err) ← buildEnv m d;
  match err with
  | Some e => logPrintf "Error building environment: %v" (LErr e);; mret 127
  | None =>
  err' ← env_SetUp env;
  match err' with
  | Some e => logPrintf "Error setting up environment: %v" (LErr e);; mret 127
  | None =>
  defer (deferredTearDown env) (afterSetUp env m d)
  end end end end.

End Launcher.

Arguments Env : clear implicits.
Arguments envProvider : clear implicits.
Arguments Platform : clear implicits.
Arguments State : clear implicits.
Arguments Out : clear implicits.
Arguments M : clear implicits.
Arguments result {World Diagnostics Metadata A} _.
Arguments final {World Diagnostics Metadata A} _.
Arguments events {World Diagnostics Metadata A} _.

Arguments bind {World Diagnostics Metadata A B} m k s /.
Arguments ret {World Diagnostics Metadata A} a s /.

(** The exit statuses the launcher's interface lists: success, the set-up
    failure code, the generic failure code, and a child's own exit code. *)
Definition documented_status (z : Z) : Prop :=
  z = 0 ∨ z = 127 ∨ z = 1 ∨ 0 ≤ z ≤ 255.

(** ** How far a run gets

    The states of the run, each reached when the previous one was and the
    next call succeeded.  The world in each predicate is the one the last
    call of that stage left behind. *)

Section Stages.
Context {World Diagnostics Metadata Proxy : Type}.
Variable P : Platform World Diagnostics Metadata Proxy.
Variable fl : Flags.
Variable d : Diagnostics.

Abbreviation State' := (State World Diagnostics Metadata).
Abbreviation Env' := (Env World).

(** The same state with another world. *)
Definition at_world (s : State') (w : World) : State' :=
  {| world := w; envProviders := envProviders s |}.

Definition MetadataLoaded (s : State') (path : string) (m : Metadata)
    (w : World) : Prop :=
  ∃ w1, Runfile P (metadataFileFlag fl) (world s) = ((path, None), w1)
        ∧ FromFile P path w1 = ((Some m, None), w).

Definition EnvironmentResolved (s : State') (path : string) (m : Metadata)
    (env : Env') (w : World) : Prop :=
  ∃ w2 F, MetadataLoaded s path m w2
          ∧ envProviders s !! Environment P m = Some F
          ∧ F (Some m) d w2 = ((Some env, None), w).

Definition EnvironmentUp (s : State') (path : string) (m : Metadata)
    (env : Env') (w : World) : Prop :=
  ∃ w3, EnvironmentResolved s path m env w3
        ∧ SetUp env w3 = (None, w).

Definition ProxyUp (s : State') (path : string) (m : Metadata) (env : Env')
    (p : option Proxy) (w : World) : Prop :=
  ∃ w4 w5, EnvironmentUp s path m env w4
           ∧ proxy_New P (Some env) (Some m) d w4 = ((p, None), w5)
           ∧ Start P p w5 = (None, w).

(** Everything up to and including the temp-dir creation succeeded, and
    the proxy is a real one. *)
Definition ChildReady (s : State') (path : string) (m : Metadata)
    (env : Env') (p : Proxy) (testExe tmpDir : string) (w : World) : Prop :=
  ∃ w6 w7, ProxyUp s path m env (Some p) w6
           ∧ Runfile P (test fl) w6 = ((testExe, None), w7)
           ∧ NewTmpDir P "test" w7 = ((tmpDir, None), w).

(** The child was run, as command [c], and [testCmd.Run()] returned
    [status]. *)
Definition ChildRan (s : State') (path : string) (m : Metadata) (env : Env')
    (c : Cmd) (status : error) (w : World) : Prop :=
  ∃ p testExe tmpDir w8 testTmpDir w9,
    ChildReady s path m env p testExe tmpDir w8
    ∧ TestTmpDir P w8 = (testTmpDir, w9)
    ∧ c = testCommand fl testExe (Environ P w8) (Address P p w8)
                      tmpDir testTmpDir
    ∧ Cmd_Run P c w9 = (status, w).

(** The temp-dir creation failed after the proxy was started and the
    test executable found. *)
Definition TmpDirFailed (s : State') (path : string) (m : Metadata)
    (env : Env') (e : errval) (w : World) : Prop :=
  ∃ p w6 testExe w7 tmpDir,
    ProxyUp s path m env p w6
    ∧ Runfile P (test fl) w6 = ((testExe, None), w7)
    ∧ NewTmpDir P "test" w7 = ((tmpDir, Some e), w).

(** The ways a run can fail before the environment is up. *)
Inductive FailsBeforeUp (s : State') : Prop :=
  | LocateFails path e w1 :
      Runfile P (metadataFileFlag fl) (world s) = ((path, Some e), w1) →
      FailsBeforeUp s
  | ParseFails path w1 m e w2 :
      Runfile P (metadataFileFlag fl) (world s) = ((path, None), w1) →
      FromFile P path w1 = ((m, Some e), w2) →
      FailsBeforeUp s
  | Unregistered path m w2 :
      MetadataLoaded s path m w2 →
      envProviders s !! Environment P m = None →
      FailsBeforeUp s
  | ProviderFails path m w2 F env e w3 :
      MetadataLoaded s path m w2 →
      envProviders s !! Environment P m = Some F →
      F (Some m) d w2 = ((env, Some e), w3) →
      FailsBeforeUp s
  | SetUpFails path m env w3 e w4 :
      EnvironmentResolved s path m env w3 →
      SetUp env w3 = (Some e, w4) →
      FailsBeforeUp s.

(** The same outcome, after the events [pre]. *)
Definition prepend {A} (pre : list event)
    (o : Out World Diagnostics Metadata A) : Out World Diagnostics Metadata A :=
  {| result := result o; final := final o; events := pre ++ events o |}.

(** The events of a run up to the environment being up. *)
Definition up_events (path : string) (m : Metadata) : list event :=
  [ERunfile (metadataFileFlag fl) None; EFromFile path None;
   EProvider (Environment P m); ESetUp None].

(** The events of the statements after the [defer] when they get as far
    as running the child as command [c]. *)
Definition child_events (c : Cmd) (status : error) : list event :=
  [EProxyNew None; EProxyStart None; ERunfile (test fl) None;
   ENewTmpDir "test" None; ERunCall c; ERunReturn status]
  ++ match status with
     | Some st => [ELog "test failed %v" (LErr st)]
     | None => []
     end.

(** The events of the statements after the [defer] when the temp-dir
    creation fails with [e]. *)
Definition tmpdir_failure_events (e : errval) : list event :=
  [EProxyNew None; EProxyStart None; ERunfile (test fl) None;
   ENewTmpDir "test" (Some e);
   ELog "Unable to create new temp dir for test: %v" (LErr e)].

(** What the deferred closure logs. *)
Definition teardown_log (err : error) : list event :=
  match err with
  | Some e => [ELog "Error tearing down environment: %v" (LErr e)]
  | None => []
  end.

End Stages.

(** ** A concrete platform

    The world is a journal of the calls that reached the other packages;
    a [Scenario] fixes what each of them answers.  [Runfile] fails on the
    empty path only. *)

Record Scenario := {
  sc_environment : string;
  sc_parse : error;
  sc_setup : error;
  sc_teardown : error;
  sc_proxy_new : error;
  sc_proxy_start : error;
  sc_tmpdir : error;
  sc_child : error }.

Definition happy (K : Z) : Scenario :=
  {| sc_environment := "local"; sc_parse := None; sc_setup := None;
     sc_teardown := None; sc_proxy_new := None; sc_proxy_start := None;
     sc_tmpdir := None; sc_child := childExit K |}.

Definition withTearDownError (sc : Scenario) : Scenario :=
  {| sc_environment := sc_environment sc; sc_parse := sc_parse sc;
     sc_setup := sc_setup sc;
     sc_teardown := Some (ErrorString "browser still running");
     sc_proxy_new := sc_proxy_new sc; sc_proxy_start := sc_proxy_start sc;
     sc_tmpdir := sc_tmpdir sc; sc_child := sc_child sc |}.

Definition proxyStartFails : Scenario :=
  {| sc_environment := "local"; sc_parse := None; sc_setup := None;
     sc_teardown := None; sc_proxy_new := None;
     sc_proxy_start := Some (ErrorString "address in use");
     sc_tmpdir := None; sc_child := None |}.

Definition setUpFails : Scenario :=
  {| sc_environment := "local"; sc_parse := None;
     sc_setup := Some (ErrorString "no display");
     sc_teardown := None; sc_proxy_new := None; sc_proxy_start := None;
     sc_tmpdir := None; sc_child := None |}.

Definition missingEnvironment : Scenario :=
  {| sc_environment := "missing"; sc_parse := None; sc_setup := None;
     sc_teardown := None; sc_proxy_new := None; sc_proxy_start := None;
     sc_tmpdir := None; sc_child := None |}.

Definition tmpDirFails : Scenario :=
  {| sc_environment := "local"; sc_parse := None; sc_setup := None;
     sc_teardown := None; sc_proxy_new := None; sc_proxy_start := None;
     sc_tmpdir := Some (ErrorString "disk full"); sc_child := None |}.

Definition demoEnv (sc : Scenario) : Env (list string) :=
  {| SetUp := λ w, (sc_setup sc, w ++ ["SetUp"]);
     TearDown := λ w, (sc_teardown sc, w ++ ["TearDown"]) |}.

Definition localProvider (sc : Scenario)
    : envProvider (list string) unit string :=
  λ _ _ w, ((Some (demoEnv sc), None), w ++ ["provider local"]).

Definition brokenProvider : envProvider (list string) unit string :=
  λ _ _ w, ((None, Some (ErrorString "no browser")), w ++ ["provider broken"]).

Definition demoPlatform (sc : Scenario)
    : Platform (list string) unit string string :=
  {| Environment := λ m, m;
     Runfile := λ path w,
       if String.eqb path ""
       then (("", Some (ErrorString "runfile not found")), w)
       else (("/runfiles/" +:+ path, None), w);
     FromFile := λ path w,
       match sc_parse sc with
       | Some e => ((None, Some e), w)
       | None => ((Some (sc_environment sc), None), w)
       end;
     proxy_New := λ env m d w,
       match sc_proxy_new sc with
       | Some e => ((None, Some e), w)
       | None => ((Some "127.0.0.1:9999", None), w ++ ["proxy.New"])
       end;
     Start := λ p w, (sc_proxy_start sc, w ++ ["proxy.Start"]);
     Address := λ p w, p;
     NewTmpDir := λ prefix w,
       match sc_tmpdir sc with
       | Some e => (("", Some e), w)
       | None => (("/tmp/" +:+ prefix +:+ "0", None), w)
       end;
     TestTmpDir := λ w, ("/harness/tmp", w);
     Environ := λ w, <["PATH" := "/bin"]> (<["TEST_TMPDIR" := "/inherited"]> ∅);
     Cmd_Run := λ c w, (sc_child sc, w ++ ["child " +:+ Path c]) |}.

Definition demoFlags : Flags :=
  {| test := "my_test"; metadataFileFlag := "my_test.json";
     flag_Args := ["--shard=1"] |}.

Definition demoState (sc : Scenario) : State (list string) unit string :=
  {| world := [];
     envProviders := <["local" := localProvider sc]> ∅ |}.

(** The command the launcher builds on the concrete platform. *)
Definition demoCmd : Cmd :=
  testCommand demoFlags "/runfiles/my_test"
    (<["PATH" := "/bin"]> (<["TEST_TMPDIR" := "/inherited"]> ∅))
    "127.0.0.1:9999" "/tmp/test0" "/harness/tmp".

Definition demoRun (sc : Scenario) (fl : Flags)
    : Out (list string) unit string Z :=
  Run (demoPlatform sc) fl tt (demoState sc).

(** ** More kinds of events *)

Definition is_Runfile (ev : event) : bool :=
  match ev with ERunfile _ _ => true | _ => false end.

Definition is_FromFile (ev : event) : bool :=
  match ev with EFromFile _ _ => true | _ => false end.

Definition is_Provider (ev : event) : bool :=
  match ev with EProvider _ => true | _ => false end.

Definition is_SetUp (ev : event) : bool :=
  match ev with ESetUp _ => true | _ => false end.

(** A [SetUp] call that returned nil. *)
Definition is_SetUp_ok (ev : event) : bool :=
  match ev with ESetUp None => true | _ => false end.

Definition is_ProxyNew (ev : event) : bool :=
  match ev with EProxyNew _ => true | _ => false end.

Definition is_ProxyStart (ev : event) : bool :=
  match ev with EProxyStart _ => true | _ => false end.

Definition is_NewTmpDir (ev : event) : bool :=
  match ev with ENewTmpDir _ _ => true | _ => false end.

Definition is_Log (ev : event) : bool :=
  match ev with ELog _ _ => true | _ => false end.

(** ** The other ways a run ends *)

Section Outcomes.
Context {World Diagnostics Metadata Proxy : Type}.
Variable P : Platform World Diagnostics Metadata Proxy.
Variable fl : Flags.
Variable d : Diagnostics.

Abbreviation State'' := (State World Diagnostics Metadata).

(** The failures between the environment being up and the temp-dir
    creation: all of them return 127. *)
Inductive FailsAfterUp (s : State'') : Prop :=
  | ProxyNewFails path m env w4 p e w5 :
      EnvironmentUp P fl d s path m env w4 →
      proxy_New P (Some env) (Some m) d w4 = ((p, Some e), w5) →
      FailsAfterUp s
  | ProxyStartFails path m env w4 p w5 e w6 :
      EnvironmentUp P fl d s path m env w4 →
      proxy_New P (Some env) (Some m) d w4 = ((p, None), w5) →
      Start P p w5 = (Some e, w6) →
      FailsAfterUp s
  | TestNotFound path m env p w6 testExe e w7 :
      ProxyUp P fl d s path m env p w6 →
      Runfile P (test fl) w6 = ((testExe, Some e), w7) →
      FailsAfterUp s.

(** A nil value came back with a nil error, before the environment was
    up: the metadata (dereferenced in [buildEnv]) or the environment
    (whose [SetUp] is called). *)
Inductive NilBeforeUp (s : State'') : Prop :=
  | NilMetadata path w1 w2 :
      Runfile P (metadataFileFlag fl) (world s) = ((path, None), w1) →
      FromFile P path w1 = ((None, None), w2) →
      NilBeforeUp s
  | NilEnv path m w2 F w3 :
      MetadataLoaded P fl s path m w2 →
      envProviders s !! Environment P m = Some F →
      F (Some m) d w2 = ((None, None), w3) →
      NilBeforeUp s.

(** A nil proxy came back with a nil error and its [Start] returned nil:
    [p.Address] is read through the nil pointer, after the temp dir was
    created.  [w] is the world at that point. *)
Definition NilProxy (s : State'') (path : string) (m : Metadata)
    (env : Env World) (w : World) : Prop :=
  ∃ w6 testExe w7 tmpDir,
    ProxyUp P fl d s path m env None w6
    ∧ Runfile P (test fl) w6 = ((testExe, None), w7)
    ∧ NewTmpDir P "test" w7 = ((tmpDir, None), w).

End Outcomes.

(** ** The shapes of a run

    The event sequences [Run] can produce, each with the outcome it comes
    with.  [body_shape] is for the statements after the [defer],
    [run_shape] for the whole of [Run]. *)

Inductive body_shape (fl : Flags) : list event → res Z → Prop :=
  | BProxyNew e :
      body_shape fl
        [EProxyNew (Some e); ELog "Error creating proxy: %v" (LErr e)]
        (Val 127)
  | BProxyStart e :
      body_shape fl
        [EProxyNew None; EProxyStart (Some e);
         ELog "Error starting proxy: %v" (LErr e)]
        (Val 127)
  | BTestNotFound e :
      body_shape fl
        [EProxyNew None; EProxyStart None; ERunfile (test fl) (Some e);
         ELog "unable to find %s" (LStr (test fl))]
        (Val 127)
  | BTmpDir e :
      body_shape fl (tmpdir_failure_events fl e) (Val (-1))
  | BNilProxy :
      body_shape fl
        [EProxyNew None; EProxyStart None; ERunfile (test fl) None;
         ENewTmpDir "test" None; EPanic]
        Panic
  | BChild c status :
      body_shape fl (child_events fl c status)
        (Val (match status with Some _ => 1 | None => 0 end)).

Inductive run_shape (fl : Flags) : list event → res Z → Prop :=
  | RLocate e :
      run_shape fl
        [ERunfile (metadataFileFlag fl) (Some e);
         ELog "Error locating metadata file: %v" (LErr e)]
        (Val 127)
  | RParse path e :
      run_shape fl
        [ERunfile (metadataFileFlag fl) None; EFromFile path (Some e);
         ELog "Error reading metadata file: %v" (LErr e)]
        (Val 127)
  | RNilMetadata path :
      run_shape fl
        [ERunfile (metadataFileFlag fl) None; EFromFile path None; EPanic]
        Panic
  | RUnregistered path name :
      run_shape fl
        [ERunfile (metadataFileFlag fl) None; EFromFile path None;
         ELog "Error building environment: %v"
              (LErr (ErrorString ("unknown environment: " +:+ name)))]
        (Val 127)
  | RProvider path name e :
      run_shape fl
        [ERunfile (metadataFileFlag fl) None; EFromFile path None;
         EProvider name; ELog "Error building environment: %v" (LErr e)]
        (Val 127)
  | RNilEnv path name :
      run_shape fl
        [ERunfile (metadataFileFlag fl) None; EFromFile path None;
         EProvider name; EPanic]
        Panic
  | RSetUp path name e :
      run_shape fl
        [ERunfile (metadataFileFlag fl) None; EFromFile path None;
         EProvider name; ESetUp (Some e);
         ELog "Error setting up environment: %v" (LErr e)]
        (Val 127)
  | RUp path name body r tderr :
      body_shape fl body r →
      run_shape fl
        (([ERunfile (metadataFileFlag fl) None; EFromFile path None;
           EProvider name; ESetUp None] ++ body)
         ++ ETearDown tderr :: teardown_log tderr)
        r.

(** ** [Run] in direct style

    [Run] up to the [defer] with the monad unfolded: each call is made on
    the world the previous one left, and each early return is written with
    its events.  It is proved equal to [Run] and is what the proofs below
    run on. *)

Section Flat.
Context {World Diagnostics Metadata Proxy : Type}.
Variable P : Platform World Diagnostics Metadata Proxy.
Variable fl : Flags.

Definition Run_flat (d : Diagnostics) (s : State World Diagnostics Metadata)
    : Out World Diagnostics Metadata Z :=
  let located := Runfile P (metadataFileFlag fl) (world s) in
  let ev1 := ERunfile (metadataFileFlag fl) in
  match located.1.2 with
  | Some e =>
      {| result := Val 127; final := at_world s located.2;
         events := [ev1 (Some e);
                    ELog "Error locating metadata file: %v" (LErr e)] |}
  | None =>
  let path := located.1.1 in
  let parsed := FromFile P path located.2 in
  match parsed.1.2 with
  | Some e =>
      {| result := Val 127; final := at_world s parsed.2;
         events := [ev1 None; EFromFile path (Some e);
                    ELog "Error reading metadata file: %v" (LErr e)] |}
  | None =>
  match parsed.1.1 with
  | None =>
      {| result := Panic; final := at_world s parsed.2;
         events := [ev1 None; EFromFile path None; EPanic] |}
  | Some m =>
  let name := Environment P m in
  match envProviders s !! name with
  | None =>
      {| result := Val 127; final := at_world s parsed.2;
         events := [ev1 None; EFromFile path None;
                    ELog "Error building environment: %v"
                      (LErr (ErrorString ("unknown environment: " +:+ name)))] |}
  | Some F =>
  let built := F (Some m) d parsed.2 in
  match built.1.2 with
  | Some e =>
      {| result := Val 127; final := at_world s built.2;
         events := [ev1 None; EFromFile path None; EProvider name;
                    ELog "Error building environment: %v" (LErr e)] |}
  | None =>
  match built.1.1 with
  | None =>
      {| result := Panic; final := at_world s built.2;
         events := [ev1 None; EFromFile path None; EProvider name; EPanic] |}
  | Some env =>
  let up := SetUp env built.2 in
  match up.1 with
  | Some e =>
      {| result := Val 127; final := at_world s up.2;
         events := [ev1 None; EFromFile path None; EProvider name;
                    ESetUp (Some e);
                    ELog "Error setting up environment: %v" (LErr e)] |}
  | None =>
      prepend [ev1 None; EFromFile path None; EProvider name; ESetUp None]
        (defer (deferredTearDown (Some env))
               (afterSetUp P fl (Some env) (Some m) d) (at_world s up.2))
  end end end end end end end.

End Flat.

(** ** The process: [main] *)

(** What ends the process: a call of [os.Exit], or a panic that nothing
    recovers. *)
Inductive ending :=
  | Exit (status : Z)
  | Crash.

(** What [main] does, in order: the calls [Run] makes, closing the
    diagnostics, and [os.Exit]. *)
Inductive pevent :=
  | PRun (ev : event)
  | PClose
  | PExit (status : Z).


Section Main.
Context {World Diagnostics Metadata Proxy : Type}.

(** The packages [main] itself calls into.  [flag.Parse] either fills
    the flags or, on a malformed command line, ends the process itself
    with a status ([flag.CommandLine] exits on error). *)
Record Process := {
  flag_Parse : World → (Flags + Z) * World;
  diagnostics_NoOP : World → Diagnostics * World;
  Close : Diagnostics → World → World }.

Record MainOut := {
  ended : ending;
  main_final : State World Diagnostics Metadata;
  main_events : list pevent }.

Variable P : Platform World Diagnostics Metadata Proxy.
Variable Q : Process.

(** [main] *)
Definition main (s : State World Diagnostics Metadata) : MainOut :=
  let parsed := flag_Parse Q (world s) in
  match parsed.1 with
  | inr status =>
      {| ended := Exit status;
         main_final := at_world s parsed.2;
         main_events := [PExit status] |}
  | inl fl =>
      let d := diagnostics_NoOP Q parsed.2 in
      let o := Run P fl d.1 (at_world s d.2) in
      match result o with
      | Panic =>
          {| ended := Crash;
             main_final := final o;
             main_events := PRun <$> events o |}
      | Val status =>
          {| ended := Exit status;
             main_final := at_world (final o) (Close Q d.1 (world (final o)));
             main_events := (PRun <$> events o) ++ [PClose; PExit status] |}
      end
  end.

End Main.

Arguments Process : clear implicits.
Arguments MainOut : clear implicits.

(** ** More concrete platforms *)

(** As [demoPlatform], but [proxy.New] returns a nil proxy and a nil
    error. *)
Definition nilProxyPlatform (sc : Scenario)
    : Platform (list string) unit string string :=
  {| Environment := Environment (demoPlatform sc);
     Runfile := Runfile (demoPlatform sc);
     FromFile := FromFile (demoPlatform sc);
     proxy_New := λ env m d w, ((None, None), w ++ ["proxy.New"]);
     Start := Start (demoPlatform sc);
     Address := Address (demoPlatform sc);
     NewTmpDir := NewTmpDir (demoPlatform sc);
     TestTmpDir := TestTmpDir (demoPlatform sc);
     Environ := Environ (demoPlatform sc);
     Cmd_Run := Cmd_Run (demoPlatform sc) |}.

Definition proxyNewFails : Scenario :=
  {| sc_environment := "local"; sc_parse := None; sc_setup := None;
     sc_teardown := None;
     sc_proxy_new := Some (ErrorString "no free port");
     sc_proxy_start := None; sc_tmpdir := None; sc_child := None |}.

(** A provider that returns a nil environment and a nil error. *)
Definition nilProvider : envProvider (list string) unit string :=
  λ _ _ w, ((None, None), w ++ ["provider nil"]).

Definition nilEnvState : State (list string) unit string :=
  {| world := []; envProviders := <["local" := nilProvider]> ∅ |}.

Definition emptyState : State (list string) unit string :=
  {| world := []; envProviders := ∅ |}.

(** A process whose command line parses to [demoFlags]. *)
Definition demoProcess : Process (list string) unit :=
  {| flag_Parse := λ w, (inl demoFlags, w);
     diagnostics_NoOP := λ w, (tt, w);
     Close := λ d w, w ++ ["diagnostics.Close"] |}.

(** * Properties *)

Ltac run_unfold :=
  unfold Run, afterSetUp, deferredTearDown, buildEnv, bazel_Runfile,
    metadata_FromFile, env_SetUp, env_TearDown, proxy_New_, p_Start,
    p_Address, bazel_NewTmpDir, testCmd_Run, logPrintf, defer, providers,
    peek, emit, panic, extern, mbind, M_bind, mret, M_mret, envProvider in *.

(** Case analysis on the next call into another package, in program
    order: only a call whose world is already named is split. *)
Ltac named_world w :=
  first [ is_var w | match w with world ?s => is_var s end ].

Ltac ext_step :=
  match goal with
  | |- context [Runfile ?P ?a ?w] =>
      named_world w; destruct (Runfile P a w) as [[? [?|]] ?] eqn:?
  | |- context [FromFile ?P ?a ?w] =>
      named_world w; destruct (FromFile P a w) as [[[?|] [?|]] ?] eqn:?
  | |- context [SetUp ?e ?w] =>
      named_world w; destruct (SetUp e w) as [[?|] ?] eqn:?
  | |- context [TearDown ?e ?w] =>
      named_world w; destruct (TearDown e w) as [[?|] ?] eqn:?
  | |- context [proxy_New ?P ?e ?m ?d ?w] =>
      named_world w; destruct (proxy_New P e m d w) as [[[?|] [?|]] ?] eqn:?
  | |- context [Start ?P ?p ?w] =>
      named_world w; destruct (Start P p w) as [[?|] ?] eqn:?
  | |- context [NewTmpDir ?P ?a ?w] =>
      named_world w; destruct (NewTmpDir P a w) as [[? [?|]] ?] eqn:?
  | |- context [TestTmpDir ?P ?w] =>
      named_world w; destruct (TestTmpDir P w) as [? ?] eqn:?
  | |- context [Cmd_Run ?P ?c ?w] =>
      named_world w; destruct (Cmd_Run P c w) as [[?|] ?] eqn:?
  end; cbn.

(** Run the model along the answers recorded in the hypotheses. *)
Ltac run_known :=
  run_unfold; cbn;
  repeat match goal with
         | H : _ = (_, _) |- _ => rewrite H; cbn
         | H : _ !! _ = _ |- _ => rewrite H; cbn
         end.

Section Properties.
Context {World Diagnostics Metadata Proxy : Type}.
Variable P : Platform World Diagnostics Metadata Proxy.
Variable fl : Flags.
Variable d : Diagnostics.

Abbreviation St := (State World Diagnostics Metadata).

Lemma count_app f (l1 l2 : list event) :
  count f (l1 ++ l2) = (count f l1 + count f l2)%nat.
Proof.
  induction l1 as [|ev l1 IH]; cbn; [done|]. rewrite IH. lia.
Qed.

Lemma run_calls_app (l1 l2 : list event) :
  run_calls (l1 ++ l2) = run_calls l1 ++ run_calls l2.
Proof.
  induction l1 as [|ev l1 IH]; [done|].
  destruct ev; cbn; by rewrite ?IH.
Qed.

(** Once the environment is up, the rest of [Run] is the deferred
    tear-down around the statements after it. *)
Lemma Run_EnvironmentUp (s : St) path m env w :
  EnvironmentUp P fl d s path m env w →
  Run P fl d s =
    prepend (up_events P fl path m)
      (defer (deferredTearDown (Some env))
             (afterSetUp P fl (Some env) (Some m) d) (at_world s w)).
Proof.
  intros (w3 & (w2 & F & (w1 & H1 & H2) & HF & H3) & H4).
  unfold Run, bazel_Runfile, metadata_FromFile, buildEnv, env_SetUp,
    providers, logPrintf, emit, extern, mbind, M_bind, mret, M_mret.
  cbn. rewrite H1. cbn. rewrite H2. cbn. rewrite HF. cbn. rewrite H3. cbn.
  rewrite H4. reflexivity.
Qed.

(** The deferred closure calls [TearDown] once, logs its error if any,
    and never panics. *)
Lemma deferredTearDown_Some (env : Env World) (s : St) :
  deferredTearDown (Some env) s =
    {| result := Val tt;
       final := at_world s (TearDown env (world s)).2;
       events := ETearDown (TearDown env (world s)).1
                 :: teardown_log (TearDown env (world s)).1 |}.
Proof.
  run_unfold. cbn. destruct (TearDown env (world s)) as [[e|] w']; reflexivity.
Qed.

Lemma count_teardown_log err :
  count is_TearDown (teardown_log err) = 0%nat
  ∧ count is_child (teardown_log err) = 0%nat.
Proof. destruct err; done. Qed.

(** What a deferred function returns is dropped: the value of the
    function is the one its body computed. *)
Lemma defer_result {A} (f : M World Diagnostics Metadata ())
    (body : M World Diagnostics Metadata A) (s : St) :
  (∀ s', result (f s') = Val tt) →
  result (defer f body s) = result (body s).
Proof. intros Hf. unfold defer. cbn. by rewrite Hf. Qed.

(** The statements after the [defer] never call [TearDown]; the child,
    if started, has returned by their end; and when the child was never
    started they ended in a logged error or a panic. *)
Lemma afterSetUp_events env m (s : St) :
  let evs := events (afterSetUp P fl env m d s) in
  count is_TearDown evs = 0%nat
  ∧ count is_RunCall evs = count is_RunReturn evs
  ∧ (count is_RunCall evs = 0%nat → existsb is_fatal evs = true).
Proof.
  run_unfold. cbn. repeat ext_step; done.
Qed.

(** C3: when [SetUp] returned nil, [Run] calls [TearDown] exactly once, as
    the last call it makes, whichever way the statements after [SetUp] end
    (proxy creation or start failing, the test executable or the temp dir
    missing, the child failing or succeeding).  The value [Run] returns is
    the one those statements computed before [TearDown] ran: it is the
    same whatever [TearDown] returns. *)
Theorem Run_TearDown_once (s : St) path m env w :
  EnvironmentUp P fl d s path m env w →
  let body := afterSetUp P fl (Some env) (Some m) d (at_world s w) in
  let td := TearDown env (world (final body)) in
  count is_TearDown (events (Run P fl d s)) = 1%nat
  ∧ events (Run P fl d s) =
      (up_events P fl path m ++ events body)
      ++ ETearDown td.1 :: teardown_log td.1
  ∧ count is_TearDown (up_events P fl path m ++ events body) = 0%nat
  ∧ result (Run P fl d s) = result body
  ∧ (∀ tearDown' : World → error * World,
       result (defer (deferredTearDown
                        (Some {| SetUp := SetUp env; TearDown := tearDown' |}))
                     (afterSetUp P fl (Some env) (Some m) d) (at_world s w))
       = result (Run P fl d s)).
Proof.
  intros Hup body td.
  rewrite (Run_EnvironmentUp _ _ _ _ _ Hup).
  destruct (afterSetUp_events (Some env) (Some m) (at_world s w))
    as (Hbody & _ & _). fold body in Hbody.
  assert (Hev : events (prepend (up_events P fl path m)
                  (defer (deferredTearDown (Some env))
                     (afterSetUp P fl (Some env) (Some m) d) (at_world s w)))
                = (up_events P fl path m ++ events body)
                  ++ ETearDown td.1 :: teardown_log td.1).
  { unfold prepend, defer. cbn [events]. rewrite deferredTearDown_Some.
    cbn [events]. by rewrite <- app_assoc. }
  assert (Hquiet : count is_TearDown (up_events P fl path m ++ events body)
                   = 0%nat).
  { rewrite count_app, Hbody. done. }
  assert (Hres : ∀ e' : Env World,
             result (defer (deferredTearDown (Some e'))
                       (afterSetUp P fl (Some env) (Some m) d) (at_world s w))
             = result body).
  { intros e'. apply defer_result. intros s'.
    by rewrite deferredTearDown_Some. }
  split_and!.
  - rewrite Hev, count_app, Hquiet. cbn.
    by destruct (count_teardown_log td.1) as [-> _].
  - exact Hev.
  - exact Hquiet.
  - apply (Hres env).
  - intros tearDown'. rewrite Hres. symmetry. apply (Hres env).
Qed.

(** C4: a run that fails before the environment is up (the metadata file
    is not found or does not parse, the environment name is not
    registered, the provider or [SetUp] returns an error) returns 127 and
    never calls [TearDown]. *)
Theorem Run_fails_before_up (s : St) :
  FailsBeforeUp P fl d s →
  result (Run P fl d s) = Val 127
  ∧ count is_TearDown (events (Run P fl d s)) = 0%nat.
Proof.
  intros [path e w1 H1
         |path w1 m e w2 H1 H2
         |path m w2 (w1 & H1 & H2) HF
         |path m w2 F env e w3 (w1 & H1 & H2) HF H3
         |path m env w3 e w4 (w2 & F & (w1 & H1 & H2) & HF & H3) H4];
    run_unfold; cbn; rewrite H1; cbn; try done;
    rewrite H2; cbn; try done;
    rewrite HF; cbn; try done;
    rewrite H3; cbn; try done;
    rewrite H4; cbn; done.
Qed.

(** *** The provider registry *)

Lemma registerAll_spec (regs : list (string * envProvider World Diagnostics Metadata))
    (s : St) :
  result (registerAll regs s) = Val tt
  ∧ world (final (registerAll regs s)) = world s
  ∧ events (registerAll regs s) = []
  ∧ ∀ N, N ∉ regs.*1 →
      envProviders (final (registerAll regs s)) !! N = envProviders s !! N.
Proof.
  revert s. induction regs as [|[name p] regs IH]; intros s.
  - done.
  - destruct (IH {| world := world s;
                    envProviders := <[name := p]> (envProviders s) |})
      as (Hr & Hw & He & Hl).
    cbn [registerAll]. unfold mbind, M_bind. cbn.
    rewrite Hr, Hw, He. split_and!; try done.
    intros N HN. cbn in HN. apply not_elem_of_cons in HN as [Hne HN].
    rewrite (Hl N HN). cbn. by rewrite lookup_insert_ne.
Qed.

Lemma buildEnv_lookup_Some (s : St) (m : Metadata)
    (F : envProvider World Diagnostics Metadata) :
  envProviders s !! Environment P m = Some F →
  buildEnv P (Some m) d s =
    {| result := Val (F (Some m) d (world s)).1;
       final := at_world s (F (Some m) d (world s)).2;
       events := [EProvider (Environment P m)] |}.
Proof. intros HF. run_unfold. cbn. rewrite HF. reflexivity. Qed.

(** C5: when [N] has been registered with the factory [F] and no later
    registration names [N], resolving metadata whose [Environment] is [N]
    calls [F], once, on the metadata and diagnostics given, calls no other
    factory (the world is the one [F] left, and the only provider event is
    the one for [N]), and returns what [F] returned. *)
Theorem buildEnv_registered (s0 : St) (N : string)
    (F : envProvider World Diagnostics Metadata)
    (later : list (string * envProvider World Diagnostics Metadata))
    (m : Metadata) :
  Environment P m = N →
  N ∉ later.*1 →
  let s := final ((RegisterEnvProviderFunc N F;; registerAll later) s0) in
  buildEnv P (Some m) d s =
    {| result := Val (F (Some m) d (world s)).1;
       final := at_world s (F (Some m) d (world s)).2;
       events := [EProvider N] |}.
Proof.
  intros HN Hlater s. subst N.
  apply buildEnv_lookup_Some.
  destruct (registerAll_spec later
              {| world := world s0;
                 envProviders := <[Environment P m := F]> (envProviders s0) |})
    as (_ & _ & _ & Hl).
  subst s. unfold mbind, M_bind. cbn.
  rewrite (Hl _ Hlater). cbn. by rewrite lookup_insert_eq.
Qed.

(** C6: when the metadata's [Environment] is not a key of the registry,
    [buildEnv] returns a nil [Env] and the error naming the environment;
    it calls no factory and leaves the state as it was. *)
Theorem buildEnv_unregistered (s : St) (m : Metadata) :
  envProviders s !! Environment P m = None →
  buildEnv P (Some m) d s =
    {| result := Val (None, Some (ErrorString
                                    ("unknown environment: " +:+ Environment P m)));
       final := s;
       events := [] |}.
Proof. intros HF. run_unfold. cbn. rewrite HF. reflexivity. Qed.

(** C7: registering [F1] and then [F2] under the same name keeps one
    entry, the second: neither call fails, the table is the one a single
    registration of [F2] gives, and resolving that name calls [F2]. *)
Theorem RegisterEnvProviderFunc_last_wins (s0 : St)
    (F1 F2 : envProvider World Diagnostics Metadata) (m : Metadata) :
  let N := Environment P m in
  let o := (RegisterEnvProviderFunc N F1;; RegisterEnvProviderFunc N F2) s0 in
  result o = Val tt
  ∧ envProviders (final o) = <[N := F2]> (envProviders s0)
  ∧ envProviders (final o) = envProviders (final (RegisterEnvProviderFunc N F2 s0))
  ∧ envProviders (final o) !! N = Some F2
  ∧ (∀ N', N' ≠ N → envProviders (final o) !! N' = envProviders s0 !! N')
  ∧ buildEnv P (Some m) d (final o) =
      {| result := Val (F2 (Some m) d (world s0)).1;
         final := at_world (final o) (F2 (Some m) d (world s0)).2;
         events := [EProvider N] |}.
Proof.
  intros N o.
  assert (Htab : envProviders (final o) = <[N := F2]> (envProviders s0)).
  { subst o. unfold mbind, M_bind. cbn. apply insert_insert_eq. }
  assert (HF2 : envProviders (final o) !! N = Some F2).
  { rewrite Htab. apply lookup_insert_eq. }
  split_and!; try done.
  - intros N' Hne. rewrite Htab. by apply lookup_insert_ne.
  - by rewrite (buildEnv_lookup_Some _ _ _ HF2).
Qed.

(** *** The run once the environment is up *)

Lemma Run_after_up (s : St) path m env w :
  EnvironmentUp P fl d s path m env w →
  let body := afterSetUp P fl (Some env) (Some m) d (at_world s w) in
  let td := TearDown env (world (final body)) in
  events (Run P fl d s) =
    (up_events P fl path m ++ events body)
    ++ ETearDown td.1 :: teardown_log td.1
  ∧ result (Run P fl d s) = result body
  ∧ final (Run P fl d s) = at_world (final body) td.2.
Proof.
  intros Hup body td.
  rewrite (Run_EnvironmentUp _ _ _ _ _ Hup).
  unfold prepend, defer. cbn [events result final].
  rewrite deferredTearDown_Some. cbn [events result final].
  by rewrite <- app_assoc.
Qed.

Lemma afterSetUp_child (s : St) env m p w4 w5 w6 testExe w7 tmpDir w8
    testTmpDir w9 status w :
  proxy_New P env m d w4 = ((Some p, None), w5) →
  Start P (Some p) w5 = (None, w6) →
  Runfile P (test fl) w6 = ((testExe, None), w7) →
  NewTmpDir P "test" w7 = ((tmpDir, None), w8) →
  TestTmpDir P w8 = (testTmpDir, w9) →
  let c := testCommand fl testExe (Environ P w8) (Address P p w8)
                       tmpDir testTmpDir in
  Cmd_Run P c w9 = (status, w) →
  afterSetUp P fl env m d (at_world s w4) =
    {| result := Val (match status with Some _ => 1 | None => 0 end);
       final := at_world s w;
       events := child_events fl c status |}.
Proof.
  intros H5 H6 H7 H8 H9 c H10. subst c. run_unfold. cbn.
  rewrite H5. cbn. rewrite H6. cbn. rewrite H7. cbn. rewrite H8. cbn.
  rewrite H9. cbn. rewrite H10. cbn. by destruct status.
Qed.

Lemma Run_ChildRan (s : St) path m env c status w :
  ChildRan P fl d s path m env c status w →
  let td := TearDown env w in
  result (Run P fl d s) = Val (match status with Some _ => 1 | None => 0 end)
  ∧ events (Run P fl d s) =
      (up_events P fl path m ++ child_events fl c status)
      ++ ETearDown td.1 :: teardown_log td.1.
Proof.
  intros (p & testExe & tmpDir & w8 & ttd & w9
          & (w6 & w7 & (w4 & w5 & Hup & H5 & H6) & H7 & H8) & H9 & -> & H10).
  destruct (Run_after_up _ _ _ _ _ Hup) as (Hev & Hres & _).
  rewrite (afterSetUp_child s _ _ _ _ _ _ _ _ _ _ _ _ _ _ H5 H6 H7 H8 H9 H10)
    in Hev, Hres.
  by rewrite Hev, Hres.
Qed.

(** C2: when [testCmd.Run()] returns a non-nil error, whatever that error
    is, [Run] returns 1: the function-level [err] that the status
    extraction inspects is the nil that the temp-dir creation left there.
    This holds even when the command's own error is an exit error with a
    readable wait status. *)
Theorem Run_child_failed_returns_1 (s : St) path m env c st w :
  ChildRan P fl d s path m env c (Some st) w →
  result (Run P fl d s) = Val 1
  ∧ asExitError (None : error) = None
  ∧ ENewTmpDir "test" None ∈ events (Run P fl d s)
  ∧ ELog "test failed %v" (LErr st) ∈ events (Run P fl d s)
  ∧ (∀ ws, st = ExitError (SysWaitStatus ws) →
       (asExitError (Some st) ≫= asWaitStatus) = Some ws).
Proof.
  intros Hran. destruct (Run_ChildRan _ _ _ _ _ _ _ Hran) as [Hres Hev].
  split_and!; try done.
  - rewrite Hev. unfold child_events. set_solver.
  - rewrite Hev. unfold child_events. set_solver.
  - by intros ws ->.
Qed.

(** C8: in a run that reaches the child, the child is run once, with the
    command whose environment is the inherited one with the overlay
    merged over it.  The overlay has exactly the four keys
    WEB_TEST_WEBDRIVER_SERVER (http://ADDRESS/wd/hub for the proxy's
    address), TEST_TMPDIR (the new temp dir), WEB_TEST_TMPDIR (the
    harness's) and WEB_TEST_TARGET (the test flag); a key of the overlay
    has the overlay's value, any other key its inherited one. *)
Theorem Run_child_environment (s : St) path m env p testExe tmpDir w8
    testTmpDir w9 :
  ChildReady P fl d s path m env p testExe tmpDir w8 →
  TestTmpDir P w8 = (testTmpDir, w9) →
  let inherited := Environ P w8 in
  let ov := overlay fl (Address P p w8) tmpDir testTmpDir in
  let c := testCommand fl testExe inherited (Address P p w8)
                       tmpDir testTmpDir in
  run_calls (events (Run P fl d s)) = [c]
  ∧ Env_ c = ov ∪ inherited
  ∧ dom ov = {[ "WEB_TEST_WEBDRIVER_SERVER"; "TEST_TMPDIR";
                "WEB_TEST_TMPDIR"; "WEB_TEST_TARGET" ]}
  ∧ ov !! "WEB_TEST_WEBDRIVER_SERVER"
      = Some ("http://" +:+ Address P p w8 +:+ "/wd/hub")
  ∧ ov !! "TEST_TMPDIR" = Some tmpDir
  ∧ ov !! "WEB_TEST_TMPDIR" = Some testTmpDir
  ∧ ov !! "WEB_TEST_TARGET" = Some (test fl)
  ∧ (∀ k v, ov !! k = Some v → Env_ c !! k = Some v)
  ∧ (∀ k, ov !! k = None → Env_ c !! k = inherited !! k).
Proof.
  intros Hready Htt inherited ov c.
  destruct (Cmd_Run P c w9) as [status w] eqn:Hrun.
  assert (Hran : ChildRan P fl d s path m env c status w).
  { exists p, testExe, tmpDir, w8, testTmpDir, w9. done. }
  destruct (Run_ChildRan _ _ _ _ _ _ _ Hran) as [_ Hev].
  rewrite Hev. clear Hev Hran.
  split_and!.
  - rewrite !run_calls_app. cbn.
    by destruct status, (TearDown env w).1.
  - done.
  - unfold ov, overlay. rewrite !dom_insert_L, dom_empty_L. set_solver.
  - by unfold ov, overlay; simplify_map_eq.
  - by unfold ov, overlay; simplify_map_eq.
  - by unfold ov, overlay; simplify_map_eq.
  - by unfold ov, overlay; simplify_map_eq.
  - intros k v Hk. cbn. unfold BulkUpdateEnv. by apply lookup_union_Some_l.
  - intros k Hk. cbn. unfold BulkUpdateEnv. by apply lookup_union_r.
Qed.

Lemma afterSetUp_tmpdir (s : St) env m p w4 w5 w6 testExe w7 tmpDir e w :
  proxy_New P env m d w4 = ((p, None), w5) →
  Start P p w5 = (None, w6) →
  Runfile P (test fl) w6 = ((testExe, None), w7) →
  NewTmpDir P "test" w7 = ((tmpDir, Some e), w) →
  afterSetUp P fl env m d (at_world s w4) =
    {| result := Val (-1);
       final := at_world s w;
       events := tmpdir_failure_events fl e |}.
Proof.
  intros H5 H6 H7 H8. run_unfold. cbn.
  rewrite H5. cbn. rewrite H6. cbn. rewrite H7. cbn. rewrite H8. done.
Qed.

(** C10: when the temp-dir creation fails, after the proxy was started and
    the test executable found, [Run] returns -1, which is none of the
    documented exit statuses; the child is never started, and [TearDown]
    is still called, once, after the failure was logged. *)
Theorem Run_tmpdir_failure (s : St) path m env e w :
  TmpDirFailed P fl d s path m env e w →
  let td := TearDown env w in
  result (Run P fl d s) = Val (-1)
  ∧ ¬ documented_status (-1)
  ∧ count is_child (events (Run P fl d s)) = 0%nat
  ∧ count is_TearDown (events (Run P fl d s)) = 1%nat
  ∧ events (Run P fl d s) =
      (up_events P fl path m ++ tmpdir_failure_events fl e)
      ++ ETearDown td.1 :: teardown_log td.1.
Proof.
  intros (p & w6 & testExe & w7 & tmpDir
          & (w4 & w5 & Hup & H5 & H6) & H7 & H8) td.
  destruct (Run_after_up _ _ _ _ _ Hup) as (Hev & Hres & _).
  rewrite (afterSetUp_tmpdir s _ _ _ _ _ _ _ _ _ _ _ H5 H6 H7 H8) in Hev, Hres.
  cbn [final world at_world] in Hev. fold td in Hev.
  rewrite Hev, Hres.
  split_and!; try done.
  - unfold documented_status. lia.
  - rewrite !count_app. cbn. by destruct td.1.
  - rewrite !count_app. cbn. by destruct td.1.
Qed.

(** *** The order of tear-down and child *)

(** A run either never calls [TearDown] or gets the environment up. *)
Lemma Run_cases (s : St) :
  count is_TearDown (events (Run P fl d s)) = 0%nat
  ∨ ∃ path m env w, EnvironmentUp P fl d s path m env w.
Proof.
  destruct (Runfile P (metadataFileFlag fl) (world s))
    as [[path [e|]] w1] eqn:H1; [left; by run_known|].
  destruct (FromFile P path w1) as [[m [e|]] w2] eqn:H2; [left; by run_known|].
  destruct m as [m|]; [|left; by run_known].
  destruct (envProviders s !! Environment P m) as [F|] eqn:HF;
    [|left; by run_known].
  destruct (F (Some m) d w2) as [[env [e|]] w3] eqn:H3; [left; by run_known|].
  destruct env as [env|]; [|left; by run_known].
  destruct (SetUp env w3) as [[e|] w4] eqn:H4; [left; by run_known|].
  right. exists path, m, env, w4, w3. split; [|done].
  exists w2, F. split_and!; [|done..]. by exists w1.
Qed.

(** A list with a single [ETearDown] splits around it in one way. *)
Lemma split_at_TearDown (A B pre post : list event) e e' :
  count is_TearDown A = 0%nat →
  count is_TearDown B = 0%nat →
  A ++ ETearDown e :: B = pre ++ ETearDown e' :: post →
  pre = A ∧ post = B.
Proof.
  intros HA HB. revert pre.
  induction A as [|a A IH]; intros [|x pre] Heq; cbn in *.
  - by injection Heq as _ ->.
  - injection Heq as <- ->. rewrite count_app in HB. cbn in HB. lia.
  - injection Heq as -> _. cbn in HA. lia.
  - injection Heq as <- Heq.
    destruct (IH ltac:(destruct a; cbn in HA; lia) pre Heq) as [-> ->]; done.
Qed.

(** C9: wherever [TearDown] is called in a run, no call or return of the
    child follows it, a child that was started before it has returned
    before it, and when no child was started a fatal error (a logged
    abort or a panic) came before it. *)
Theorem TearDown_after_child (s : St) (pre post : list event) e :
  events (Run P fl d s) = pre ++ ETearDown e :: post →
  count is_child post = 0%nat
  ∧ count is_RunReturn pre = count is_RunCall pre
  ∧ (count is_RunCall pre = 0%nat → existsb is_fatal pre = true).
Proof.
  intros Hsplit.
  destruct (Run_cases s) as [H0 | (path & m & env & w & Hup)].
  { rewrite Hsplit, count_app in H0. cbn in H0. lia. }
  destruct (Run_after_up _ _ _ _ _ Hup) as (Hev & _ & _).
  destruct (afterSetUp_events (Some env) (Some m) (at_world s w))
    as (Hquiet & Hchild & Hfatal).
  set (body := afterSetUp P fl (Some env) (Some m) d (at_world s w)) in *.
  set (td := TearDown env (world (final body))) in *.
  rewrite Hsplit in Hev. symmetry in Hev.
  apply split_at_TearDown in Hev as [-> ->].
  - split_and!.
    + by destruct td.1.
    + rewrite !count_app. cbn. lia.
    + rewrite count_app, existsb_app. cbn. intros Hnone.
      rewrite Hfatal; [done | lia].
  - rewrite count_app, Hquiet. done.
  - by destruct td.1.
Qed.

(** *** The exit status of the child *)

(** The wait status of a child that exited with code [K] reads back as
    [K]. *)
Lemma ExitStatus_exited (K : Z) :
  0 ≤ K ≤ 255 → ExitStatus (Z.shiftl K 8) = K.
Proof.
  intros HK. unfold ExitStatus, Exited.
  change 127 with (Z.ones 7). change 255 with (Z.ones 8).
  rewrite Z.land_ones by lia.
  rewrite Z.shiftr_shiftl_l, Z.sub_diag, Z.shiftl_0_r by lia.
  rewrite Z.land_ones by lia.
  rewrite Z.shiftl_mul_pow2 by lia.
  replace (K * 2 ^ 8) with ((K * 2) * 2 ^ 7) by lia.
  rewrite Z.mod_mul by lia. cbn.
  apply Z.mod_small. lia.
Qed.

(** A child that exits with a code other than zero makes [Run] return 1,
    although the error of [testCmd.Run()] holds the code. *)
Lemma Run_nonzero_exit (s : St) path m env c K w :
  1 ≤ K ≤ 255 →
  ChildRan P fl d s path m env c (childExit K) w →
  result (Run P fl d s) = Val 1
  ∧ (asExitError (childExit K) ≫= asWaitStatus) = Some (Z.shiftl K 8)
  ∧ ExitStatus (Z.shiftl K 8) = K.
Proof.
  intros HK Hran.
  assert (HKb : (K =? 0) = false) by lia.
  unfold childExit in *. rewrite HKb in *.
  destruct (Run_ChildRan _ _ _ _ _ _ _ Hran) as [Hres _].
  split_and!; [done | done | apply ExitStatus_exited; lia].
Qed.

(** A child that exits with code zero makes [Run] return 0. *)
Lemma Run_zero_exit (s : St) path m env c w :
  ChildRan P fl d s path m env c (childExit 0) w →
  result (Run P fl d s) = Val 0.
Proof.
  intros Hran. by destruct (Run_ChildRan _ _ _ _ _ _ _ Hran) as [Hres _].
Qed.

End Properties.

(** * The properties on the concrete platform *)

Ltac stage :=
  unfold ChildRan, ChildReady, TmpDirFailed, ProxyUp, EnvironmentUp,
    EnvironmentResolved, MetadataLoaded;
  repeat eexists.

(** C1: on the concrete platform, with every step before the child
    succeeding and the child exiting with code 3, [testCmd.Run()] returns an
    exit error whose wait status reads as 3, and [Run] returns 1, not 3;
    [TearDown] is called once. *)
Theorem Run_child_exit_3_returns_1 :
  let o := demoRun (happy 3) demoFlags in
  existsb (λ ev, match ev with
                 | ERunReturn (Some (ExitError (SysWaitStatus ws))) =>
                     ExitStatus ws =? 3
                 | _ => false
                 end) (events o) = true
  ∧ result o = Val 1
  ∧ result o ≠ Val 3
  ∧ count is_TearDown (events o) = 1%nat.
Proof. vm_compute. split_and!; done. Qed.

Lemma Run_child_failed_returns_1_witness :
  ChildRan (demoPlatform (happy 3)) demoFlags tt (demoState (happy 3))
    "/runfiles/my_test.json" "local" (demoEnv (happy 3)) demoCmd
    (Some (ExitError (SysWaitStatus 768)))
    ["provider local"; "SetUp"; "proxy.New"; "proxy.Start";
     "child /runfiles/my_test"]
  ∧ result (demoRun (happy 3) demoFlags) = Val 1.
Proof.
  assert (H : ChildRan (demoPlatform (happy 3)) demoFlags tt
                (demoState (happy 3)) "/runfiles/my_test.json" "local"
                (demoEnv (happy 3)) demoCmd
                (Some (ExitError (SysWaitStatus 768)))
                ["provider local"; "SetUp"; "proxy.New"; "proxy.Start";
                 "child /runfiles/my_test"]).
  { stage. }
  split; [exact H|].
  exact (proj1 (Run_child_failed_returns_1 _ _ _ _ _ _ _ _ _ _ H)).
Defined.

Lemma Run_TearDown_once_witness :
  let sc := withTearDownError proxyStartFails in
  EnvironmentUp (demoPlatform sc) demoFlags tt (demoState sc)
    "/runfiles/my_test.json" "local" (demoEnv sc) ["provider local"; "SetUp"]
  ∧ count is_TearDown (events (demoRun sc demoFlags)) = 1%nat.
Proof.
  intros sc.
  assert (H : EnvironmentUp (demoPlatform sc) demoFlags tt (demoState sc)
                "/runfiles/my_test.json" "local" (demoEnv sc)
                ["provider local"; "SetUp"]).
  { stage. }
  split; [exact H|].
  exact (proj1 (Run_TearDown_once _ _ _ _ _ _ _ _ H)).
Defined.

Lemma Run_fails_before_up_witness :
  FailsBeforeUp (demoPlatform setUpFails) demoFlags tt (demoState setUpFails)
  ∧ result (demoRun setUpFails demoFlags) = Val 127
  ∧ count is_TearDown (events (demoRun setUpFails demoFlags)) = 0%nat.
Proof.
  assert (H : FailsBeforeUp (demoPlatform setUpFails) demoFlags tt
                (demoState setUpFails)).
  { eapply (SetUpFails _ _ _ _ "/runfiles/my_test.json" "local"
              (demoEnv setUpFails) ["provider local"]); stage. }
  split; [exact H|].
  exact (Run_fails_before_up _ _ _ _ H).
Defined.

Lemma buildEnv_registered_witness :
  Environment (demoPlatform (happy 0)) "local" = "local"
  ∧ ("local" ∉ [("broken", brokenProvider)].*1)
  ∧ events (buildEnv (demoPlatform (happy 0)) (Some "local") tt
              (final ((RegisterEnvProviderFunc "local" (localProvider (happy 0));;
                       registerAll [("broken", brokenProvider)])
                        (demoState missingEnvironment))))
    = [EProvider "local"].
Proof.
  assert (H1 : Environment (demoPlatform (happy 0)) "local" = "local")
    by reflexivity.
  assert (H2 : "local" ∉ [("broken", brokenProvider)].*1).
  { cbn. intros Hin. apply list_elem_of_singleton in Hin. discriminate. }
  split_and!; [exact H1 | exact H2 |].
  exact (f_equal events
           (buildEnv_registered (demoPlatform (happy 0)) tt
              (demoState missingEnvironment) "local" (localProvider (happy 0))
              [("broken", brokenProvider)] "local" H1 H2)).
Defined.

Lemma buildEnv_unregistered_witness :
  envProviders (demoState missingEnvironment)
    !! (Environment (demoPlatform missingEnvironment) "missing") = None
  ∧ result (buildEnv (demoPlatform missingEnvironment) (Some "missing") tt
              (demoState missingEnvironment))
    = Val (None, Some (ErrorString "unknown environment: missing")).
Proof.
  assert (H : envProviders (demoState missingEnvironment)
              !! (Environment (demoPlatform missingEnvironment) "missing") = None)
    by reflexivity.
  split; [exact H|].
  exact (f_equal result
           (buildEnv_unregistered (demoPlatform missingEnvironment) tt
              (demoState missingEnvironment) "missing" H)).
Defined.

Lemma Run_child_environment_witness :
  ChildReady (demoPlatform (happy 0)) demoFlags tt (demoState (happy 0))
    "/runfiles/my_test.json" "local" (demoEnv (happy 0)) "127.0.0.1:9999"
    "/runfiles/my_test" "/tmp/test0"
    ["provider local"; "SetUp"; "proxy.New"; "proxy.Start"]
  ∧ TestTmpDir (demoPlatform (happy 0))
      ["provider local"; "SetUp"; "proxy.New"; "proxy.Start"]
    = ("/harness/tmp", ["provider local"; "SetUp"; "proxy.New"; "proxy.Start"])
  ∧ run_calls (events (demoRun (happy 0) demoFlags)) = [demoCmd].
Proof.
  assert (H1 : ChildReady (demoPlatform (happy 0)) demoFlags tt
                 (demoState (happy 0)) "/runfiles/my_test.json" "local"
                 (demoEnv (happy 0)) "127.0.0.1:9999" "/runfiles/my_test"
                 "/tmp/test0"
                 ["provider local"; "SetUp"; "proxy.New"; "proxy.Start"]).
  { stage. }
  assert (H2 : TestTmpDir (demoPlatform (happy 0))
                 ["provider local"; "SetUp"; "proxy.New"; "proxy.Start"]
               = ("/harness/tmp",
                  ["provider local"; "SetUp"; "proxy.New"; "proxy.Start"]))
    by reflexivity.
  split_and!; [exact H1 | exact H2 |].
  exact (proj1 (Run_child_environment _ _ _ _ _ _ _ _ _ _ _ _ _ H1 H2)).
Defined.

Lemma TearDown_after_child_witness :
  let sc := withTearDownError (happy 3) in
  let pre := up_events (demoPlatform sc) demoFlags "/runfiles/my_test.json" "local"
             ++ child_events demoFlags demoCmd (childExit 3) in
  let e := Some (ErrorString "browser still running") in
  events (demoRun sc demoFlags) = pre ++ ETearDown e :: teardown_log e
  ∧ count is_child (teardown_log e) = 0%nat
  ∧ count is_RunReturn pre = count is_RunCall pre.
Proof.
  intros sc pre e.
  assert (H : events (demoRun sc demoFlags)
              = pre ++ ETearDown e :: teardown_log e) by (vm_compute; reflexivity).
  split; [exact H|].
  pose proof (TearDown_after_child (demoPlatform sc) demoFlags tt
                (demoState sc) pre (teardown_log e) e H) as (H1 & H2 & _).
  exact (conj H1 H2).
Defined.

Lemma Run_tmpdir_failure_witness :
  TmpDirFailed (demoPlatform tmpDirFails) demoFlags tt (demoState tmpDirFails)
    "/runfiles/my_test.json" "local" (demoEnv tmpDirFails)
    (ErrorString "disk full")
    ["provider local"; "SetUp"; "proxy.New"; "proxy.Start"]
  ∧ result (demoRun tmpDirFails demoFlags) = Val (-1).
Proof.
  assert (H : TmpDirFailed (demoPlatform tmpDirFails) demoFlags tt
                (demoState tmpDirFails) "/runfiles/my_test.json" "local"
                (demoEnv tmpDirFails) (ErrorString "disk full")
                ["provider local"; "SetUp"; "proxy.New"; "proxy.Start"]).
  { stage. }
  split; [exact H|].
  exact (proj1 (Run_tmpdir_failure _ _ _ _ _ _ _ _ _ H)).
Defined.

(** * More properties of the launcher *)

(** Run the direct-style form along the answers recorded in the
    hypotheses. *)
Ltac flat_known :=
  unfold Run_flat, envProvider in *; cbn;
  repeat match goal with
         | H : _ = (_, _) |- _ => rewrite H; cbn
         | H : _ !! _ = _ |- _ => rewrite H; cbn
         end.

(** Open a stage or outcome predicate into the answers it records. *)
Ltac answers :=
  repeat first
    [ progress unfold ChildRan, ChildReady, TmpDirFailed, NilProxy, ProxyUp,
        EnvironmentUp, EnvironmentResolved, MetadataLoaded in *
    | match goal with
      | H : FailsBeforeUp _ _ _ _ |- _ => destruct H
      | H : NilBeforeUp _ _ _ _ |- _ => destruct H
      | H : FailsAfterUp _ _ _ _ |- _ => destruct H
      | H : ∃ _, _ |- _ => destruct H
      | H : _ ∧ _ |- _ => destruct H
      | H : _ ∨ _ |- _ => destruct H
      end ];
  subst.

Section Outcome_properties.
Context {World Diagnostics Metadata Proxy : Type}.
Variable P : Platform World Diagnostics Metadata Proxy.
Variable fl : Flags.
Variable d : Diagnostics.

Abbreviation St' := (State World Diagnostics Metadata).

(** The direct-style form is [Run]. *)
Lemma Run_flat_eq (s : St') : Run P fl d s = Run_flat P fl d s.
Proof.
  unfold Run_flat.
  destruct (Runfile P (metadataFileFlag fl) (world s))
    as [[path [e|]] w1] eqn:H1; cbn; [by run_known|].
  destruct (FromFile P path w1) as [[m [e|]] w2] eqn:H2; cbn; [by run_known|].
  destruct m as [m|]; [|by run_known].
  destruct (envProviders s !! Environment P m) as [F|] eqn:HF;
    [|by run_known].
  destruct (F (Some m) d w2) as [[env [e|]] w3] eqn:H3; cbn; [by run_known|].
  destruct env as [env|]; [|by run_known].
  destruct (SetUp env w3) as [[e|] w4] eqn:H4; cbn; [by run_known|].
  apply (Run_EnvironmentUp P fl d s path m env w4).
  exists w3. split; [|done]. exists w2, F. split_and!; [|done..]. by exists w1.
Qed.

(** *** Every run ends in one of six ways *)

Lemma Run_total (s : St') :
  FailsBeforeUp P fl d s
  ∨ NilBeforeUp P fl d s
  ∨ FailsAfterUp P fl d s
  ∨ (∃ path m env e w, TmpDirFailed P fl d s path m env e w)
  ∨ (∃ path m env w, NilProxy P fl d s path m env w)
  ∨ (∃ path m env c status w, ChildRan P fl d s path m env c status w).
Proof.
  destruct (Runfile P (metadataFileFlag fl) (world s))
    as [[path [e|]] w1] eqn:H1; [left; by eapply LocateFails|].
  destruct (FromFile P path w1) as [[m [e|]] w2] eqn:H2;
    [left; by eapply ParseFails|].
  destruct m as [m|]; [|right; left; by eapply NilMetadata].
  assert (Hm : MetadataLoaded P fl s path m w2) by by exists w1.
  destruct (envProviders s !! Environment P m) as [F|] eqn:HF;
    [|left; by eapply Unregistered].
  destruct (F (Some m) d w2) as [[env [e|]] w3] eqn:H3;
    [left; by eapply ProviderFails|].
  destruct env as [env|]; [|right; left; by eapply NilEnv].
  assert (Hr : EnvironmentResolved P fl d s path m env w3) by by exists w2, F.
  destruct (SetUp env w3) as [[e|] w4] eqn:H4; [left; by eapply SetUpFails|].
  assert (Hup : EnvironmentUp P fl d s path m env w4) by by exists w3.
  right; right.
  destruct (proxy_New P (Some env) (Some m) d w4) as [[p [e|]] w5] eqn:H5;
    [left; by eapply ProxyNewFails|].
  destruct (Start P p w5) as [[e|] w6] eqn:H6;
    [left; by eapply ProxyStartFails|].
  assert (Hp : ProxyUp P fl d s path m env p w6) by by exists w4, w5.
  destruct (Runfile P (test fl) w6) as [[testExe [e|]] w7] eqn:H7;
    [left; by eapply TestNotFound|].
  right.
  destruct (NewTmpDir P "test" w7) as [[tmpDir [e|]] w8] eqn:H8.
  { left. exists path, m, env, e, w8. by exists p, w6, testExe, w7, tmpDir. }
  right.
  destruct p as [p|]; [|left; exists path, m, env, w8;
                         by exists w6, testExe, w7, tmpDir].
  right.
  destruct (TestTmpDir P w8) as [testTmpDir w9] eqn:H9.
  destruct (Cmd_Run P (testCommand fl testExe (Environ P w8) (Address P p w8)
                                   tmpDir testTmpDir) w9)
    as [status w] eqn:H10.
  exists path, m, env,
    (testCommand fl testExe (Environ P w8) (Address P p w8) tmpDir testTmpDir),
    status, w.
  exists p, testExe, tmpDir, w8, testTmpDir, w9.
  split_and!; [|done..]. by exists w6, w7.
Qed.

(** *** The statements after the [defer] *)

Lemma afterSetUp_shape env m (s : St') :
  body_shape fl (events (afterSetUp P fl env m d s))
                (result (afterSetUp P fl env m d s))
  ∧ envProviders (final (afterSetUp P fl env m d s)) = envProviders s.
Proof.
  remember (afterSetUp P fl env m d s) as o eqn:Ho. revert Ho.
  run_unfold. cbn. repeat ext_step; intros ->; cbn; (split; [|done]);
    by constructor.
Qed.

Lemma afterSetUp_FailsAfterUp (s : St') env m w4 :
  (∃ p e w5, proxy_New P env m d w4 = ((p, Some e), w5))
  ∨ (∃ p w5 e w6, proxy_New P env m d w4 = ((p, None), w5)
                   ∧ Start P p w5 = (Some e, w6))
  ∨ (∃ p w5 w6 testExe e w7,
        proxy_New P env m d w4 = ((p, None), w5)
        ∧ Start P p w5 = (None, w6)
        ∧ Runfile P (test fl) w6 = ((testExe, Some e), w7)) →
  let body := afterSetUp P fl env m d (at_world s w4) in
  result body = Val 127
  ∧ count is_TearDown (events body) = 0%nat
  ∧ count is_child (events body) = 0%nat
  ∧ count is_NewTmpDir (events body) = 0%nat.
Proof.
  intros [(p & e & w5 & H5)
         |[(p & w5 & e & w6 & H5 & H6)
          |(p & w5 & w6 & testExe & e & w7 & H5 & H6 & H7)]];
    by run_known.
Qed.

(** *** The shape of a run *)

(** The shape of a run and what it leaves of the registry, by one case
    analysis on the direct-style form. *)
Lemma Run_shape_and_registry (s : St') :
  run_shape fl (events (Run P fl d s)) (result (Run P fl d s))
  ∧ envProviders (final (Run P fl d s)) = envProviders s.
Proof.
  rewrite Run_flat_eq. unfold Run_flat.
  destruct (Runfile P (metadataFileFlag fl) (world s))
    as [[path [e|]] w1]; cbn [fst snd]; [by split; [constructor|]|].
  destruct (FromFile P path w1) as [[m [e|]] w2]; cbn [fst snd];
    [by split; [constructor|]|].
  destruct m as [m|]; [|by split; [constructor|]].
  destruct (envProviders s !! Environment P m) as [F|];
    [|by split; [constructor|]].
  destruct (F (Some m) d w2) as [[env [e|]] w3]; cbn [fst snd];
    [by split; [constructor|]|].
  destruct env as [env|]; [|by split; [constructor|]].
  destruct (SetUp env w3) as [[e|] w4]; cbn [fst snd];
    [by split; [constructor|]|].
  unfold prepend, defer. cbn [events result final].
  rewrite deferredTearDown_Some. cbn [events result final envProviders at_world].
  destruct (afterSetUp_shape (Some env) (Some m) (at_world s w4)) as [Hb Hp].
  split; [|done].
  rewrite app_assoc.
  by apply (RUp fl path (Environment P m) _ _ _ Hb).
Qed.

(** X1: every run of [Run] has one of the shapes of [run_shape]: the
    calls it makes, in order, what it logs, and the value it returns (or
    the panic) are those of one of the thirteen listed paths. *)
Theorem Run_has_shape (s : St') :
  run_shape fl (events (Run P fl d s)) (result (Run P fl d s)).
Proof. apply Run_shape_and_registry. Qed.

(** X2: [Run] leaves the provider table as it found it. *)
Theorem Run_keeps_registry (s : St') :
  envProviders (final (Run P fl d s)) = envProviders s.
Proof. apply Run_shape_and_registry. Qed.

(** *** What every run keeps to *)

Lemma run_shape_counts evs r :
  run_shape fl evs r →
  count is_TearDown evs = count is_SetUp_ok evs
  ∧ ((count is_FromFile evs ≤ 1 ∧ count is_Provider evs ≤ 1
      ∧ count is_SetUp evs ≤ 1 ∧ count is_ProxyNew evs ≤ 1
      ∧ count is_ProxyStart evs ≤ 1 ∧ count is_NewTmpDir evs ≤ 1
      ∧ count is_RunCall evs ≤ 1 ∧ count is_RunReturn evs ≤ 1
      ∧ count is_TearDown evs ≤ 1 ∧ count is_Runfile evs ≤ 2)%nat)
  ∧ count is_RunCall evs
    = match r with
      | Val z => if (z =? 0) || (z =? 1) then 1%nat else 0%nat
      | Panic => 0%nat
      end
  ∧ (∀ z, r = Val z → z = 0 ∨ z = 1 ∨ z = 127 ∨ z = -1).
Proof.
  intros [e|path e|path|path name|path name e|path name|path name e
         |path name body r' tderr
            [e|e|e|e| |c [st|]]];
    try destruct tderr; cbn; split_and!; try done; try lia;
    intros z [= <-]; auto.
Qed.

Lemma Run_counts (s : St') :
  let evs := events (Run P fl d s) in
  let r := result (Run P fl d s) in
  count is_TearDown evs = count is_SetUp_ok evs
  ∧ ((count is_FromFile evs ≤ 1 ∧ count is_Provider evs ≤ 1
      ∧ count is_SetUp evs ≤ 1 ∧ count is_ProxyNew evs ≤ 1
      ∧ count is_ProxyStart evs ≤ 1 ∧ count is_NewTmpDir evs ≤ 1
      ∧ count is_RunCall evs ≤ 1 ∧ count is_RunReturn evs ≤ 1
      ∧ count is_TearDown evs ≤ 1 ∧ count is_Runfile evs ≤ 2)%nat)
  ∧ count is_RunCall evs
    = match r with
      | Val z => if (z =? 0) || (z =? 1) then 1%nat else 0%nat
      | Panic => 0%nat
      end
  ∧ (∀ z, r = Val z → z = 0 ∨ z = 1 ∨ z = 127 ∨ z = -1).
Proof. intros evs r. apply run_shape_counts, Run_shape_and_registry. Qed.

(** X3: whatever the other packages answer, a value [Run] returns is one
    of 0, 1, 127 and -1; no other exit code of the child is ever
    returned. *)
Theorem Run_status_range (s : St') (z : Z) :
  result (Run P fl d s) = Val z →
  z = 0 ∨ z = 1 ∨ z = 127 ∨ z = -1.
Proof. destruct (Run_counts s) as (_ & _ & _ & Hr). apply Hr. Qed.

(** X4: in every run, also one that panics, [TearDown] is called as many
    times as [SetUp] returned nil, and [SetUp] is called at most once. *)
Theorem TearDown_iff_SetUp_ok (s : St') :
  count is_TearDown (events (Run P fl d s))
  = count is_SetUp_ok (events (Run P fl d s))
  ∧ (count is_SetUp (events (Run P fl d s)) ≤ 1)%nat.
Proof.
  destruct (Run_counts s) as (Htd & Hb & _). split; [done|].
  by destruct Hb as (_ & _ & Hsu & _).
Qed.

(** X5: nothing is retried: a run parses the metadata, calls a provider,
    [SetUp], [proxy.New], [Start], [NewTmpDir], the child and [TearDown] at
    most once each, and [Runfile] at most twice. *)
Theorem Run_call_budget (s : St') :
  let evs := events (Run P fl d s) in
  (count is_FromFile evs ≤ 1 ∧ count is_Provider evs ≤ 1
   ∧ count is_SetUp evs ≤ 1 ∧ count is_ProxyNew evs ≤ 1
   ∧ count is_ProxyStart evs ≤ 1 ∧ count is_NewTmpDir evs ≤ 1
   ∧ count is_RunCall evs ≤ 1 ∧ count is_RunReturn evs ≤ 1
   ∧ count is_TearDown evs ≤ 1 ∧ count is_Runfile evs ≤ 2)%nat.
Proof. by destruct (Run_counts s) as (_ & Hb & _). Qed.

(** X6: the child was started exactly when [Run] returns 0 or 1: with
    127, -1 or a panic the test never ran. *)
Theorem child_started_iff (s : St') :
  (count is_RunCall (events (Run P fl d s)) = 1%nat
   ↔ result (Run P fl d s) = Val 0 ∨ result (Run P fl d s) = Val 1)
  ∧ (count is_RunCall (events (Run P fl d s)) = 0%nat
     ↔ ¬ (result (Run P fl d s) = Val 0 ∨ result (Run P fl d s) = Val 1)).
Proof.
  destruct (Run_counts s) as (_ & _ & Hc & Hr).
  rewrite Hc. clear Hc.
  destruct (result (Run P fl d s)) as [z|].
  - destruct (Hr z eq_refl) as [-> | [-> | [-> | ->]]]; cbn;
      intuition (discriminate || auto).
  - intuition (discriminate || auto).
Qed.

(** *** What each way of ending returns *)

Lemma FailsBeforeUp_out (s : St') :
  FailsBeforeUp P fl d s →
  result (Run P fl d s) = Val 127.
Proof. intros Hs. rewrite Run_flat_eq. answers; by flat_known. Qed.

Lemma NilBeforeUp_out (s : St') :
  NilBeforeUp P fl d s →
  Run P fl d s = Run_flat P fl d s
  ∧ result (Run_flat P fl d s) = Panic
  ∧ count is_SetUp (events (Run_flat P fl d s)) = 0%nat
  ∧ count is_TearDown (events (Run_flat P fl d s)) = 0%nat
  ∧ count is_child (events (Run_flat P fl d s)) = 0%nat.
Proof.
  intros Hs. split; [apply Run_flat_eq|]. answers; by flat_known.
Qed.

(** X7: when the metadata or the environment comes back nil with a nil
    error, [Run] panics on the nil dereference; [SetUp] and [TearDown] are
    never called and the child is never started. *)
Theorem Run_NilBeforeUp (s : St') :
  NilBeforeUp P fl d s →
  result (Run P fl d s) = Panic
  ∧ count is_SetUp (events (Run P fl d s)) = 0%nat
  ∧ count is_TearDown (events (Run P fl d s)) = 0%nat
  ∧ count is_child (events (Run P fl d s)) = 0%nat.
Proof.
  intros Hs. destruct (NilBeforeUp_out s Hs) as (-> & Hrest). exact Hrest.
Qed.

Lemma FailsAfterUp_body (s : St') :
  FailsAfterUp P fl d s →
  ∃ path m env w4,
    EnvironmentUp P fl d s path m env w4
    ∧ let body := afterSetUp P fl (Some env) (Some m) d (at_world s w4) in
      result body = Val 127
      ∧ count is_TearDown (events body) = 0%nat
      ∧ count is_child (events body) = 0%nat
      ∧ count is_NewTmpDir (events body) = 0%nat.
Proof.
  intros [path m env w4 p e w5 Hup H5
         |path m env w4 p w5 e w6 Hup H5 H6
         |path m env p w6 testExe e w7 (w4 & w5 & Hup & H5 & H6) H7];
    exists path, m, env, w4; (split; [done|]);
    apply afterSetUp_FailsAfterUp.
  - left. by exists p, e, w5.
  - right; left. by exists p, w5, e, w6.
  - right; right. by exists p, w5, w6, testExe, e, w7.
Qed.

Lemma FailsAfterUp_result (s : St') :
  FailsAfterUp P fl d s → result (Run P fl d s) = Val 127.
Proof.
  intros Hf.
  destruct (FailsAfterUp_body s Hf) as (path & m & env & w4 & Hup & Hr & _).
  destruct (Run_after_up _ _ _ _ _ _ _ _ Hup) as (_ & Hres & _).
  by rewrite Hres.
Qed.

(** X8: when [proxy.New] or [Start] returns an error, or the test
    executable is not found, [Run] returns 127; [TearDown] is called once,
    no temp dir is created and the child is never started. *)
Theorem Run_FailsAfterUp (s : St') :
  FailsAfterUp P fl d s →
  result (Run P fl d s) = Val 127
  ∧ count is_TearDown (events (Run P fl d s)) = 1%nat
  ∧ count is_child (events (Run P fl d s)) = 0%nat
  ∧ count is_NewTmpDir (events (Run P fl d s)) = 0%nat.
Proof.
  intros Hf.
  destruct (FailsAfterUp_body s Hf) as (path & m & env & w4 & Hup & Hbody).
  destruct (Run_after_up _ _ _ _ _ _ _ _ Hup) as (Hev & Hres & _).
  cbn zeta in Hbody. destruct Hbody as (Hr & Ht & Hc & Hn).
  rewrite Hev, Hres, !count_app, Ht, Hc, Hn. cbn.
  destruct (TearDown env _).1; done.
Qed.

Lemma afterSetUp_NilProxy (s : St') env m w4 w5 w6 testExe w7 tmpDir w :
  proxy_New P env m d w4 = ((None, None), w5) →
  Start P None w5 = (None, w6) →
  Runfile P (test fl) w6 = ((testExe, None), w7) →
  NewTmpDir P "test" w7 = ((tmpDir, None), w) →
  afterSetUp P fl env m d (at_world s w4)
  = {| result := Panic; final := at_world s w;
       events := [EProxyNew None; EProxyStart None; ERunfile (test fl) None;
                  ENewTmpDir "test" None; EPanic] |}.
Proof. intros H5 H6 H7 H8. by run_known. Qed.

Lemma NilProxy_result (s : St') path m env w :
  NilProxy P fl d s path m env w → result (Run P fl d s) = Panic.
Proof.
  intros (w6 & testExe & w7 & tmpDir & (w4 & w5 & Hup & H5 & H6) & H7 & H8).
  destruct (Run_after_up _ _ _ _ _ _ _ _ Hup) as (_ & Hres & _).
  by rewrite Hres, (afterSetUp_NilProxy s _ _ _ _ _ _ _ _ _ H5 H6 H7 H8).
Qed.

(** X9: when [proxy.New] returns a nil proxy with a nil error and [Start]
    on it returns nil, [Run] panics on reading [p.Address], after the temp
    dir was created; the deferred [TearDown] still runs, once, and the
    child is never started. *)
Theorem Run_NilProxy (s : St') path m env w :
  NilProxy P fl d s path m env w →
  result (Run P fl d s) = Panic
  ∧ count is_TearDown (events (Run P fl d s)) = 1%nat
  ∧ count is_child (events (Run P fl d s)) = 0%nat
  ∧ count is_NewTmpDir (events (Run P fl d s)) = 1%nat.
Proof.
  intros (w6 & testExe & w7 & tmpDir & (w4 & w5 & Hup & H5 & H6) & H7 & H8).
  destruct (Run_after_up _ _ _ _ _ _ _ _ Hup) as (Hev & Hres & _).
  rewrite (afterSetUp_NilProxy s _ _ _ _ _ _ _ _ _ H5 H6 H7 H8) in Hev, Hres.
  rewrite Hev, Hres. cbn.
  destruct (TearDown env w).1; done.
Qed.

Lemma Run_TmpDirFailed (s : St') path m env e w :
  TmpDirFailed P fl d s path m env e w →
  result (Run P fl d s) = Val (-1).
Proof.
  intros (p & w6 & testExe & w7 & tmpDir
          & (w4 & w5 & Hup & H5 & H6) & H7 & H8).
  destruct (Run_after_up _ _ _ _ _ _ _ _ Hup) as (_ & Hres & _).
  by rewrite Hres, (afterSetUp_tmpdir _ _ _ s _ _ _ _ _ _ _ _ _ _ _ H5 H6 H7 H8).
Qed.

(** Every run ends in one of the six ways, with the outcome of that way. *)
Lemma Run_classified (s : St') :
  (FailsBeforeUp P fl d s ∧ result (Run P fl d s) = Val 127)
  ∨ (NilBeforeUp P fl d s ∧ result (Run P fl d s) = Panic)
  ∨ (FailsAfterUp P fl d s ∧ result (Run P fl d s) = Val 127)
  ∨ ((∃ path m env e w, TmpDirFailed P fl d s path m env e w)
     ∧ result (Run P fl d s) = Val (-1))
  ∨ ((∃ path m env w, NilProxy P fl d s path m env w)
     ∧ result (Run P fl d s) = Panic)
  ∨ (∃ path m env c status w,
        ChildRan P fl d s path m env c status w
        ∧ result (Run P fl d s)
          = Val (match status with Some _ => 1 | None => 0 end)).
Proof.
  destruct (Run_total s)
    as [H|[H|[H|[(path & m & env & e & w & H)
                |[(path & m & env & w & H)
                 |(path & m & env & c & status & w & H)]]]]].
  - left. split; [done|]. by apply FailsBeforeUp_out.
  - right; left. split; [done|].
    destruct (NilBeforeUp_out s H) as (-> & Hr & _). exact Hr.
  - right; right; left. split; [done|]. by apply FailsAfterUp_result.
  - right; right; right; left. split; [eauto 10|].
    by eapply Run_TmpDirFailed.
  - right; right; right; right; left. split; [eauto 10|].
    by eapply NilProxy_result.
  - right; right; right; right; right.
    exists path, m, env, c, status, w. split; [done|].
    by eapply Run_ChildRan.
Qed.

(** X10: [Run] returns 0 exactly when the child was run and
    [testCmd.Run()] returned nil. *)
Theorem Run_returns_0_iff (s : St') :
  result (Run P fl d s) = Val 0
  ↔ ∃ path m env c w, ChildRan P fl d s path m env c None w.
Proof.
  split.
  - intros Hr.
    destruct (Run_classified s)
      as [[_ H]|[[_ H]|[[_ H]|[[_ H]|[[_ H]
         |(path & m & env & c & status & w & Hran & H)]]]]];
      rewrite H in Hr; try discriminate.
    destruct status; [discriminate|]. eauto 10.
  - intros (path & m & env & c & w & Hran).
    by destruct (Run_ChildRan _ _ _ _ _ _ _ _ _ _ Hran) as [-> _].
Qed.

(** X11: [Run] returns 1 exactly when the child was run and
    [testCmd.Run()] returned an error. *)
Theorem Run_returns_1_iff (s : St') :
  result (Run P fl d s) = Val 1
  ↔ ∃ path m env c st w, ChildRan P fl d s path m env c (Some st) w.
Proof.
  split.
  - intros Hr.
    destruct (Run_classified s)
      as [[_ H]|[[_ H]|[[_ H]|[[_ H]|[[_ H]
         |(path & m & env & c & status & w & Hran & H)]]]]];
      rewrite H in Hr; try discriminate.
    destruct status; [|discriminate]. eauto 10.
  - intros (path & m & env & c & st & w & Hran).
    by destruct (Run_ChildRan _ _ _ _ _ _ _ _ _ _ Hran) as [-> _].
Qed.

(** X12: [Run] returns 127 exactly when a step before the temp-dir
    creation returned an error: locating or parsing the metadata, the
    registry lookup, the provider, [SetUp], [proxy.New], [Start], or
    locating the test executable. *)
Theorem Run_returns_127_iff (s : St') :
  result (Run P fl d s) = Val 127
  ↔ FailsBeforeUp P fl d s ∨ FailsAfterUp P fl d s.
Proof.
  split.
  - intros Hr.
    destruct (Run_classified s)
      as [[Hc H]|[[_ H]|[[Hc H]|[[_ H]|[[_ H]
         |(path & m & env & c & status & w & Hran & H)]]]]];
      rewrite H in Hr; try discriminate; auto.
    by destruct status.
  - intros [H|H]; [by apply FailsBeforeUp_out | by apply FailsAfterUp_result].
Qed.

(** X13: [Run] returns -1 exactly when the temp-dir creation returned an
    error. *)
Theorem Run_returns_minus_1_iff (s : St') :
  result (Run P fl d s) = Val (-1)
  ↔ ∃ path m env e w, TmpDirFailed P fl d s path m env e w.
Proof.
  split.
  - intros Hr.
    destruct (Run_classified s)
      as [[_ H]|[[_ H]|[[_ H]|[[Hc H]|[[_ H]
         |(path & m & env & c & status & w & Hran & H)]]]]];
      rewrite H in Hr; try discriminate; auto.
    by destruct status.
  - intros (path & m & env & e & w & H). by eapply Run_TmpDirFailed.
Qed.


(** *** The child's command *)

Lemma count_run_calls (evs : list event) :
  count is_RunCall evs = length (run_calls evs).
Proof.
  induction evs as [|ev evs IH]; [done|]. destruct ev; cbn; by rewrite IH.
Qed.

(** X15: every command a run starts has as arguments the executable
    that [bazel.Runfile] returned, without an error, for the test flag,
    followed by the command-line arguments left after the flags, in order;
    and it has the launcher's own standard streams. *)
Theorem child_command_shape (s : St') (c : Cmd) :
  c ∈ run_calls (events (Run P fl d s)) →
  (∃ w testExe, (Runfile P (test fl) w).1 = (testExe, None)
                ∧ Args c = testExe :: flag_Args fl)
  ∧ Stdin c = Some os_Stdin
  ∧ Stdout c = Some os_Stdout
  ∧ Stderr c = Some os_Stderr.
Proof.
  intros Hc.
  destruct (Run_classified s)
    as [[_ Hr]|[[_ Hr]|[[_ Hr]|[[_ Hr]|[[_ Hr]
       |(path & m & env & c0 & status & w & H & _)]]]]].
  1-5: exfalso; destruct (Run_counts s) as (_ & _ & Hn & _);
    rewrite count_run_calls, Hr in Hn;
    destruct (run_calls (events (Run P fl d s)));
    first [by apply elem_of_nil in Hc | done].
  destruct (Run_ChildRan _ _ _ _ _ _ _ _ _ _ H) as [_ Hev].
  rewrite Hev, !run_calls_app in Hc. clear Hev.
  assert (Hc0 : c = c0).
  { destruct status, (TearDown env w).1; cbn in Hc;
      by apply list_elem_of_singleton in Hc. }
  subst c0.
  destruct H as (p & testExe & tmpDir & w8 & ttd & w9
                 & (w6 & w7 & _ & H7 & _) & _ & -> & _).
  split_and!; try done. exists w6, testExe. by rewrite H7.
Qed.

(** *** The registry *)

(** X16: with no provider registered, [Run] never gets to [SetUp]: it
    returns 127 or panics on nil metadata, and calls no provider. *)
Theorem Run_empty_registry (s : St') :
  envProviders s = ∅ →
  (result (Run P fl d s) = Val 127 ∨ result (Run P fl d s) = Panic)
  ∧ count is_Provider (events (Run P fl d s)) = 0%nat
  ∧ count is_SetUp (events (Run P fl d s)) = 0%nat
  ∧ count is_TearDown (events (Run P fl d s)) = 0%nat.
Proof.
  intros He. rewrite Run_flat_eq. unfold Run_flat.
  destruct (Runfile P (metadataFileFlag fl) (world s))
    as [[path [e|]] w1]; cbn [fst snd]; [by auto|].
  destruct (FromFile P path w1) as [[m [e|]] w2]; cbn [fst snd]; [by auto|].
  destruct m as [m|]; [|by auto].
  rewrite He, lookup_empty. by auto.
Qed.

Lemma after_up_frame env m (w : World)
    (provs provs' : gmap string (envProvider World Diagnostics Metadata)) :
  let o := defer (deferredTearDown (Some env)) (afterSetUp P fl (Some env) m d)
             {| world := w; envProviders := provs |} in
  let o' := defer (deferredTearDown (Some env)) (afterSetUp P fl (Some env) m d)
              {| world := w; envProviders := provs' |} in
  result o = result o' ∧ events o = events o'
  ∧ world (final o) = world (final o').
Proof.
  intros o o'. subst o o'.
  remember (defer _ _ {| world := w; envProviders := provs |}) as o eqn:Ho.
  remember (defer _ _ {| world := w; envProviders := provs' |}) as o' eqn:Ho'.
  revert Ho Ho'. run_unfold. cbn. repeat ext_step; by intros -> ->.
Qed.

(** X17: a run depends on the registry only through the entry for the
    environment the metadata names: from the same world, two tables that
    agree on that name give the same result, the same calls and the same
    final world. *)
Theorem Run_registry_frame (s s' : St') :
  world s = world s' →
  (∀ path m w, MetadataLoaded P fl s path m w →
     envProviders s !! Environment P m = envProviders s' !! Environment P m) →
  result (Run P fl d s) = result (Run P fl d s')
  ∧ events (Run P fl d s) = events (Run P fl d s')
  ∧ world (final (Run P fl d s)) = world (final (Run P fl d s')).
Proof.
  intros Hw Hlk. rewrite !Run_flat_eq. unfold Run_flat.
  destruct s as [w provs], s' as [w' provs'].
  cbn in Hw. subst w'. cbn [world envProviders] in *.
  destruct (Runfile P (metadataFileFlag fl) w) as [[path [e|]] w1] eqn:H1;
    cbn [fst snd]; [done|].
  destruct (FromFile P path w1) as [[m [e|]] w2] eqn:H2; cbn [fst snd];
    [done|].
  destruct m as [m|]; [|done].
  pose proof (Hlk path m w2 ltac:(by exists w1)) as Hl.
  revert Hl. unfold envProvider.
  match goal with |- ?a = _ → _ => destruct a as [F|] end; intros <-;
    [|by cbn].
  destruct (F (Some m) d w2) as [[env [e|]] w3]; cbn [fst snd]; [by cbn|].
  destruct env as [env|]; [|by cbn].
  destruct (SetUp env w3) as [[e|] w4]; cbn [fst snd]; [done|].
  unfold prepend, at_world. cbn [result events final world envProviders].
  by destruct (after_up_frame env (Some m) w4 provs provs') as (-> & -> & ->).
Qed.

(** X18: [buildEnv] only reads the registry and calls at most one
    provider; when it calls none it leaves the state as it was, and it
    returns a nil error only after calling one. *)
Theorem buildEnv_frame (m : option Metadata) (s : St') :
  let o := buildEnv P m d s in
  envProviders (final o) = envProviders s
  ∧ (count is_Provider (events o) ≤ 1)%nat
  ∧ (count is_Provider (events o) = 0%nat → final o = s)
  ∧ (∀ env, result o = Val (env, None) →
       count is_Provider (events o) = 1%nat).
Proof.
  destruct s as [w provs]. run_unfold. destruct m as [m|]; cbn.
  - destruct (provs !! Environment P m) as [F|] eqn:HF; cbn.
    + split_and!; [done | lia | done | done].
    + split_and!; [done | lia | done | by intros env [=]].
  - split_and!; [done | lia | done | by intros env [=]].
Qed.

(** X19: a sequence of registrations leaves the table in which every
    name registered has the provider of its last registration, and every
    other name the entry it had. *)
Theorem registerAll_table
    (regs : list (string * envProvider World Diagnostics Metadata)) (s : St') :
  envProviders (final (registerAll regs s))
  = list_to_map (reverse regs) ∪ envProviders s.
Proof.
  revert s. induction regs as [|[name p] regs IH]; intros s.
  - cbn. by rewrite (left_id_L ∅ (∪)).
  - change (final (registerAll ((name, p) :: regs) s))
      with (final (registerAll regs
                     {| world := world s;
                        envProviders := <[name := p]> (envProviders s) |})).
    rewrite IH. cbn [envProviders].
    rewrite reverse_cons, list_to_map_app. cbn.
    rewrite <- (assoc_L (∪)).
    by rewrite insert_empty, <- insert_union_singleton_l.
Qed.

(** X20: registrations under different names commute: either order
    leaves the same state. *)
Theorem RegisterEnvProviderFunc_commute (N1 N2 : string)
    (F1 F2 : envProvider World Diagnostics Metadata) (s : St') :
  N1 ≠ N2 →
  final ((RegisterEnvProviderFunc N1 F1;; RegisterEnvProviderFunc N2 F2) s)
  = final ((RegisterEnvProviderFunc N2 F2;; RegisterEnvProviderFunc N1 F1) s).
Proof.
  intros Hne. unfold mbind, M_bind. cbn. f_equal. by apply insert_insert_ne.
Qed.

End Outcome_properties.

(** *** The process *)

Section Main_properties.
Context {World Diagnostics Metadata Proxy : Type}.
Variable P : Platform World Diagnostics Metadata Proxy.
Variable Q : Process World Diagnostics.



(** X22: when the flags parse, a status [main] passes to [os.Exit] is one
    of 0, 1, 127 and -1. *)
Theorem main_exit_status (s : State World Diagnostics Metadata)
    (fl' : Flags) (z : Z) :
  (flag_Parse Q (world s)).1 = inl fl' →
  ended (main P Q s) = Exit z →
  z = 0 ∨ z = 1 ∨ z = 127 ∨ z = -1.
Proof.
  unfold main. intros ->.
  destruct (result (Run P fl' _ _)) as [status|] eqn:Hr;
    cbn [ended]; [|done].
  intros [= <-].
  match type of Hr with
  | result (Run _ _ ?d' ?s') = _ =>
      destruct (Run_counts P fl' d' s') as (_ & _ & _ & Hrange)
  end.
  by apply Hrange.
Qed.

End Main_properties.

(** * The further properties on the concrete platform *)

Lemma Run_status_range_witness :
  result (demoRun (happy 0) demoFlags) = Val 0
  ∧ (0 = 0 ∨ 0 = 1 ∨ 0 = 127 ∨ 0 = -1).
Proof.
  assert (H : result (demoRun (happy 0) demoFlags) = Val 0)
    by (vm_compute; reflexivity).
  split; [exact H|].
  exact (Run_status_range (demoPlatform (happy 0)) demoFlags tt
           (demoState (happy 0)) 0 H).
Defined.

Lemma Run_NilBeforeUp_witness :
  NilBeforeUp (demoPlatform (happy 0)) demoFlags tt nilEnvState
  ∧ result (Run (demoPlatform (happy 0)) demoFlags tt nilEnvState) = Panic.
Proof.
  assert (H : NilBeforeUp (demoPlatform (happy 0)) demoFlags tt nilEnvState).
  { eapply (NilEnv _ _ _ _ "/runfiles/my_test.json" "local" []
              nilProvider ["provider nil"]); stage. }
  split; [exact H|].
  exact (proj1 (Run_NilBeforeUp _ _ _ _ H)).
Defined.

Lemma Run_FailsAfterUp_witness :
  FailsAfterUp (demoPlatform proxyNewFails) demoFlags tt
    (demoState proxyNewFails)
  ∧ result (demoRun proxyNewFails demoFlags) = Val 127.
Proof.
  assert (H : FailsAfterUp (demoPlatform proxyNewFails) demoFlags tt
                (demoState proxyNewFails)).
  { eapply (ProxyNewFails _ _ _ _ "/runfiles/my_test.json" "local"
              (demoEnv proxyNewFails) ["provider local"; "SetUp"]); stage. }
  split; [exact H|].
  exact (proj1 (Run_FailsAfterUp (demoPlatform proxyNewFails) demoFlags tt
                  (demoState proxyNewFails) H)).
Defined.

Lemma Run_NilProxy_witness :
  NilProxy (nilProxyPlatform (happy 0)) demoFlags tt (demoState (happy 0))
    "/runfiles/my_test.json" "local" (demoEnv (happy 0))
    ["provider local"; "SetUp"; "proxy.New"; "proxy.Start"]
  ∧ result (Run (nilProxyPlatform (happy 0)) demoFlags tt
              (demoState (happy 0))) = Panic.
Proof.
  assert (H : NilProxy (nilProxyPlatform (happy 0)) demoFlags tt
                (demoState (happy 0)) "/runfiles/my_test.json" "local"
                (demoEnv (happy 0))
                ["provider local"; "SetUp"; "proxy.New"; "proxy.Start"]).
  { unfold NilProxy. stage. }
  split; [exact H|].
  exact (proj1 (Run_NilProxy _ _ _ _ _ _ _ _ H)).
Defined.

Lemma child_command_shape_witness :
  demoCmd ∈ run_calls (events (demoRun (happy 0) demoFlags))
  ∧ Stdin demoCmd = Some os_Stdin.
Proof.
  assert (H : demoCmd ∈ run_calls (events (demoRun (happy 0) demoFlags))).
  { change (demoCmd ∈ [demoCmd]). apply list_elem_of_here. }
  split; [exact H|].
  exact (proj1 (proj2 (child_command_shape (demoPlatform (happy 0)) demoFlags
                         tt (demoState (happy 0)) demoCmd H))).
Defined.

Lemma Run_empty_registry_witness :
  envProviders emptyState = ∅
  ∧ (result (Run (demoPlatform (happy 0)) demoFlags tt emptyState) = Val 127
     ∨ result (Run (demoPlatform (happy 0)) demoFlags tt emptyState) = Panic).
Proof.
  assert (H : envProviders emptyState = ∅) by reflexivity.
  split; [exact H|].
  exact (proj1 (Run_empty_registry (demoPlatform (happy 0)) demoFlags tt
                  emptyState H)).
Defined.

Lemma Run_registry_frame_witness :
  let s := demoState (happy 0) in
  let s' := final (RegisterEnvProviderFunc "broken" brokenProvider s) in
  world s = world s'
  ∧ (∀ path m w,
       MetadataLoaded (demoPlatform (happy 0)) demoFlags s path m w →
       envProviders s !! Environment (demoPlatform (happy 0)) m
       = envProviders s' !! Environment (demoPlatform (happy 0)) m)
  ∧ result (Run (demoPlatform (happy 0)) demoFlags tt s)
    = result (Run (demoPlatform (happy 0)) demoFlags tt s').
Proof.
  intros s s'.
  assert (H1 : world s = world s') by reflexivity.
  assert (H2 : ∀ path m w,
             MetadataLoaded (demoPlatform (happy 0)) demoFlags s path m w →
             envProviders s !! Environment (demoPlatform (happy 0)) m
             = envProviders s' !! Environment (demoPlatform (happy 0)) m).
  { intros path m w (w1 & Hr & Hf). cbn in Hf. injection Hf as <- _.
    reflexivity. }
  split_and!; [exact H1 | exact H2 |].
  exact (proj1 (Run_registry_frame (demoPlatform (happy 0)) demoFlags tt
                  s s' H1 H2)).
Defined.

Lemma RegisterEnvProviderFunc_commute_witness :
  "local" ≠ "broken"
  ∧ final ((RegisterEnvProviderFunc "local" (localProvider (happy 0));;
            RegisterEnvProviderFunc "broken" brokenProvider) emptyState)
    = final ((RegisterEnvProviderFunc "broken" brokenProvider;;
              RegisterEnvProviderFunc "local" (localProvider (happy 0)))
               emptyState).
Proof.
  assert (H : "local" ≠ "broken") by discriminate.
  split; [exact H|].
  exact (RegisterEnvProviderFunc_commute "local" "broken" _ _ emptyState H).
Defined.

Lemma main_exit_status_witness :
  (flag_Parse demoProcess (world (demoState (happy 3)))).1 = inl demoFlags
  ∧ ended (main (demoPlatform (happy 3)) demoProcess (demoState (happy 3)))
    = Exit 1
  ∧ (1 = 0 ∨ 1 = 1 ∨ 1 = 127 ∨ 1 = -1).
Proof.
  assert (H1 : (flag_Parse demoProcess (world (demoState (happy 3)))).1
               = inl demoFlags) by reflexivity.
  assert (H2 : ended (main (demoPlatform (happy 3)) demoProcess
                        (demoState (happy 3))) = Exit 1)
    by (vm_compute; reflexivity).
  split_and!; [exact H1 | exact H2 |].
  exact (main_exit_status _ _ _ _ _ H1 H2).
Defined.
